(** * predict_level.py: difficulty levels for French flashcard words

    A shallow embedding of [old_files_backup/predict_level.py] and the
    properties of its feature builder, its frequency thresholds and its
    per-word resolution.

    Conventions of the embedding.
    - A Python [float] is a rational number or NaN ([float] below).
      Arithmetic on numbers is exact: rounding and infinities are left out,
      NaN and its comparison and truthiness rules are kept.
    - A Python [str] is a [string] whose characters are code points below 256.
    - A cell of an object column of the corpus is a string or NaN, which is
      what [pandas.read_csv] gives for an empty field.
    - Exceptions are values of [exn]; calls into the classifier, the label
      encoder and [print] are recorded in an event log. *)

From Stdlib Require Import List String Ascii Bool Arith ZArith QArith Qround Lia Lqa.
From Stdlib Require Import Sorting.Sorted Sorting.Permutation Sorting.Mergesort Orders.
Import ListNotations.

Local Open Scope string_scope.

(* ===================================================================== *)
(** ** Python values *)
(* ===================================================================== *)

Module Py.

(** A float: a number or NaN. *)
Inductive float : Type :=
| Num (q : Q)
| NaN.

(** [x + y] *)
Definition add (x y : float) : float :=
  match x, y with
  | Num a, Num b => Num (a + b)
  | _, _ => NaN
  end.

(** [x / 2] *)
Definition div2 (x : float) : float :=
  match x with
  | Num a => Num (a / 2)
  | NaN => NaN
  end.

(** [x >= y]: every comparison with NaN is false. *)
Definition ge (x y : float) : bool :=
  match x, y with
  | Num a, Num b => Qle_bool b a
  | _, _ => false
  end.

(** [bool(x)]: zero is falsy, every other float (NaN too) is truthy. *)
Definition truthy (x : float) : bool :=
  match x with
  | Num a => negb (Qeq_bool a 0)
  | NaN => true
  end.

(** [x or d] on floats. *)
Definition or_else (x d : float) : float :=
  if truthy x then x else d.

(** Equality of floats as values: numbers up to [Qeq], NaN only with NaN
    (this is identity of the result, not Python's [==]). *)
Definition same (x y : float) : Prop :=
  match x, y with
  | Num a, Num b => a == b
  | NaN, NaN => True
  | _, _ => False
  end.

(** A value of an object column: a string, or NaN for an empty field. *)
Inductive cell : Type :=
| Str (s : string)
| Missing.

(** [bool(c)]: the empty string is falsy, NaN is truthy. *)
Definition cell_truthy (c : cell) : bool :=
  match c with
  | Str s => negb (String.eqb s "")
  | Missing => true
  end.

(** [c or d] on object cells. *)
Definition cell_or_else (c d : cell) : cell :=
  if cell_truthy c then c else d.

(** [c == w] for a string [w]. *)
Definition cell_eqb (c : cell) (w : string) : bool :=
  match c with
  | Str s => String.eqb s w
  | Missing => false
  end.

(** [ch.isspace()] for a code point below 256. *)
Definition isspace (ch : ascii) : bool :=
  let n := nat_of_ascii ch in
  (((9 <=? n) && (n <=? 13)) || ((28 <=? n) && (n <=? 32))
   || (n =? 133) || (n =? 160))%nat.

(** [s.lstrip()] *)
Fixpoint lstrip (s : string) : string :=
  match s with
  | EmptyString => EmptyString
  | String ch rest => if isspace ch then lstrip rest else s
  end.

(** [s.rstrip()] *)
Fixpoint rstrip (s : string) : string :=
  match s with
  | EmptyString => EmptyString
  | String ch rest =>
      match rstrip rest with
      | EmptyString => if isspace ch then EmptyString else String ch EmptyString
      | rest' => String ch rest'
      end
  end.

(** [s.strip()] *)
Definition strip (s : string) : string := rstrip (lstrip s).

(** Exceptions the script can end with. *)
Inductive exn : Type :=
| SystemExit (msg : string)      (* sys.exit("...") *)
| SystemExitCode (code : Z)      (* sys.exit(n) *)
| KeyError (key : string)
| IndexError
| OtherError (what : string).

Inductive result (A : Type) : Type :=
| Ok (a : A)
| Raise (e : exn).
Arguments Ok {A} a.
Arguments Raise {A} e.

End Py.
Import Py.

(* ===================================================================== *)
(** ** The numpy and pandas operations the script calls *)
(* ===================================================================== *)

Module Numpy.

(** The order [np.sort] uses on numbers, for the library's merge sort. *)
Module QOrder <: TotalLeBool.
Definition t := Q.
Definition leb := Qle_bool.
Definition leb_total (a1 a2 : Q) : leb a1 a2 = true \/ leb a2 a1 = true :=
  match Qlt_le_dec a1 a2 with
  | left H => or_introl (proj2 (Qle_bool_iff a1 a2) (Qlt_le_weak a1 a2 H))
  | right H => or_intror (proj2 (Qle_bool_iff a2 a1) H)
  end.
End QOrder.

Module QSort := Sort QOrder.

(** [_lerp(a, b, t)]: [a + (b - a) * t], taken from the side of [b] when
    [t >= 0.5]. *)
Definition lerp (a b t : Q) : Q :=
  if Qle_bool (1 # 2) t then b - (b - a) * (1 - t) else a + (b - a) * t.

(** [np.percentile(data, p)] for one percentage [p], default method
    ['linear']: the value at the virtual index [(n - 1) * p / 100] of the
    sorted data, interpolated between its two neighbours.  A percentage
    outside [0, 100] is refused, and on empty data the call ends with an
    exception: there is no percentile to return. *)
Definition percentile (data : list Q) (p : Q) : result Q :=
  if negb (Qle_bool 0 p && Qle_bool p 100) then Raise (OtherError "ValueError")
  else
    match data with
    | [] => Raise IndexError
    | d0 :: _ =>
        let sorted := QSort.sort data in
        let n := Z.of_nat (List.length data) in
        let virtual_index := inject_Z (n - 1) * (p / 100) in
        let previous_index := Qfloor virtual_index in
        if Qle_bool (inject_Z (n - 1)) virtual_index
        then Ok (last sorted d0)
        else
          let previous := nth (Z.to_nat previous_index) sorted d0 in
          let next := nth (Z.to_nat (previous_index + 1)) sorted d0 in
          let gamma := virtual_index - inject_Z previous_index in
          Ok (lerp previous next gamma)
    end.

(** The order of the sort, as a proposition. *)
Definition Qle_b (a b : Q) : Prop := Qle_bool a b = true.

(** The value [np.percentile] reads at a virtual index [h] of sorted data
    of length [n]. *)
Definition at_virtual_index (sorted : list Q) (d0 : Q) (n : Z) (h : Q) : Q :=
  if Qle_bool (inject_Z (n - 1)) h
  then last sorted d0
  else lerp (nth (Z.to_nat (Qfloor h)) sorted d0)
            (nth (Z.to_nat (Qfloor h + 1)) sorted d0)
            (h - inject_Z (Qfloor h)).

End Numpy.

Module Pandas.

(** The non-NaN entries of a sequence. *)
Fixpoint dropna (xs : list float) : list Q :=
  match xs with
  | [] => []
  | Num q :: rest => q :: dropna rest
  | NaN :: rest => dropna rest
  end.

Definition Qsum (qs : list Q) : Q := fold_right Qplus 0 qs.

(** [.mean(skipna=True)] of a sequence: the mean of its non-NaN entries,
    NaN when there is none. *)
Definition mean_skipna (xs : list float) : float :=
  match dropna xs with
  | [] => NaN
  | qs => Num (Qsum qs / inject_Z (Z.of_nat (List.length qs)))
  end.

(** [.fillna(d)] on one entry. *)
Definition fillna (d : Q) (x : float) : Q :=
  match x with
  | Num q => q
  | NaN => d
  end.

End Pandas.

(* ===================================================================== *)
(** ** The corpus [df_master] *)
(* ===================================================================== *)

(** One row of the corpus. *)
Record CorpusRow : Type := {
  lemme : cell;
  cgram : cell;
  genre : cell;
  freqlemfilms2 : float;
  freqlemlivres : float
}.

(** The corpus frame: its rows and which of the columns the script reads
    with [row.get(col, default)] exist.  The fields of a row under an absent
    column are never read. *)
Record DataFrame : Type := {
  has_genre : bool;
  has_freqlemfilms2 : bool;
  has_freqlemlivres : bool;
  rows : list CorpusRow
}.

(** [row.get('genre', d)] *)
Definition get_genre (df : DataFrame) (row : CorpusRow) (d : cell) : cell :=
  if has_genre df then genre row else d.

(** [row.get('freqlemfilms2', d)] *)
Definition get_freqlemfilms2 (df : DataFrame) (row : CorpusRow) (d : float) : float :=
  if has_freqlemfilms2 df then freqlemfilms2 row else d.

(** [row.get('freqlemlivres', d)] *)
Definition get_freqlemlivres (df : DataFrame) (row : CorpusRow) (d : float) : float :=
  if has_freqlemlivres df then freqlemlivres row else d.

(** [df[['freqlemfilms2','freqlemlivres']]]: the two frequency measures of
    every row; [KeyError] when one of the columns does not exist. *)
Definition freq_columns (df : DataFrame) : result (list (list float)) :=
  if negb (has_freqlemfilms2 df) then Raise (KeyError "freqlemfilms2")
  else if negb (has_freqlemlivres df) then Raise (KeyError "freqlemlivres")
  else Ok (map (fun row => [freqlemfilms2 row; freqlemlivres row]) (rows df)).

(** [frame.mean(axis=1, skipna=True)] *)
Definition mean_axis1 (frame : list (list float)) : list float :=
  map Pandas.mean_skipna frame.

(** [df[df['lemme'] == w]] *)
Definition select_lemme (df : DataFrame) (w : string) : list CorpusRow :=
  filter (fun row => cell_eqb (lemme row) w) (rows df).

(** [w in df['lemme'].values] *)
Definition in_lemme (df : DataFrame) (w : string) : bool :=
  existsb (fun row => cell_eqb (lemme row) w) (rows df).

(* ===================================================================== *)
(** ** Effects: exceptions and the log of outside calls *)
(* ===================================================================== *)

(** The feature row handed to the classifier (one dict of [prepare_input]). *)
Record FeatureRecord : Type := {
  f_lemme : cell;
  f_cgram : cell;
  f_genre : cell;
  f_avg_freq : float
}.

(** What the script does to the outside world, in order. *)
Inductive event : Type :=
| EPredict (df_input : list FeatureRecord)   (* pipeline.predict(df_input) *)
| EInverse (code : Z)                        (* le.inverse_transform([code]) *)
| EPrint (line : string).                    (* print(line) *)

(** A computation: from the log so far to a result and the extended log. *)
Definition M (A : Type) : Type := list event -> result A * list event.

Definition ret {A} (a : A) : M A := fun log => (Ok a, log).

Definition bind {A B} (m : M A) (k : A -> M B) : M B :=
  fun log =>
    match m log with
    | (Ok a, log') => k a log'
    | (Raise e, log') => (Raise e, log')
    end.

Definition raise {A} (e : exn) : M A := fun log => (Raise e, log).

Definition emit (ev : event) : M unit := fun log => (Ok tt, (log ++ [ev])%list).

Definition lift {A} (r : result A) : M A := fun log => (r, log).

Declare Scope py_scope.
Delimit Scope py_scope with py.
Notation "x <- m ;; k" := (bind m (fun x => k))
  (at level 61, m at next level, right associativity) : py_scope.
Notation "m ;;; k" := (bind m (fun _ => k))
  (at level 61, right associativity) : py_scope.

(** Sequencing of pure fallible steps. *)
Definition rbind {A B} (r : result A) (k : A -> result B) : result B :=
  match r with
  | Ok a => k a
  | Raise e => Raise e
  end.

(* ===================================================================== *)
(** ** The model artifacts *)
(* ===================================================================== *)

(** The classifier: [pipeline.predict(df_input)[0]], a label code, or the
    exception the call ends with. *)
Definition Pipeline : Type := list FeatureRecord -> result Z.

(** The label encoder: the text of [le.inverse_transform([code])[0]]. *)
Definition LabelEncoder : Type := Z -> result string.

(** What [joblib.load] finds at a path. *)
Inductive file (A : Type) : Type :=
| Loaded (a : A)
| NotFound                 (* FileNotFoundError *)
| Unreadable (e : exn).    (* any other exception of the load *)
Arguments Loaded {A} a.
Arguments NotFound {A}.
Arguments Unreadable {A} e.

Record Files : Type := {
  model_file : file Pipeline;
  encoder_file : file LabelEncoder
}.

Definition MODEL_PATH : string := "level_model.pkl".
Definition ENCODER_PATH : string := "label_encoder.pkl".

Definition load_pipeline (fs : Files) : M Pipeline :=
  match model_file fs with
  | Loaded pipeline => ret pipeline
  | NotFound =>
      raise (SystemExit ("Error: Model file not found at '" ++ MODEL_PATH ++ "'."))
  | Unreadable e => raise e
  end.

Definition load_label_encoder (fs : Files) : M LabelEncoder :=
  match encoder_file fs with
  | Loaded le => ret le
  | NotFound =>
      raise (SystemExit ("Error: Encoder file not found at '" ++ ENCODER_PATH ++ "'."))
  | Unreadable e => raise e
  end.

(* ===================================================================== *)
(** ** [prepare_input] *)
(* ===================================================================== *)

(** The body of the loop of [prepare_input] for one word. *)
Definition prepare_row (df_master : DataFrame) (w : string) : result FeatureRecord :=
  let w_str := strip w in
  match select_lemme df_master w_str with
  | row :: _ =>
      let avg :=
        or_else
          (div2 (add (get_freqlemfilms2 df_master row (Num 0))
                     (get_freqlemlivres df_master row (Num 0))))
          (Num 0) in
      Ok {| f_lemme := lemme row;
            f_cgram := cgram row;
            f_genre := cell_or_else (get_genre df_master row (Str "none")) (Str "none");
            f_avg_freq := avg |}
  | [] =>
      rbind (freq_columns df_master) (fun frame =>
      let avg_global := Pandas.mean_skipna (mean_axis1 frame) in
      Ok {| f_lemme := Str w_str;
            f_cgram := Str "unknown";
            f_genre := Str "none";
            f_avg_freq := avg_global |})
  end.

(** The loop of [prepare_input]: [rows] grows by one dict per word. *)
Fixpoint prepare_loop (df_master : DataFrame) (words : list string)
    (rows : list FeatureRecord) : result (list FeatureRecord) :=
  match words with
  | [] => Ok rows
  | w :: rest =>
      rbind (prepare_row df_master w) (fun r =>
      prepare_loop df_master rest (rows ++ [r])%list)
  end.

Definition prepare_input (df_master : DataFrame) (words : list string)
    : result (list FeatureRecord) :=
  prepare_loop df_master words [].

(* ===================================================================== *)
(** ** [predict_levels] *)
(* ===================================================================== *)

(** Lines 99-100: the frequency series and its 33rd and 66th percentile. *)
Definition freq_series (df_master : DataFrame) : result (list Q) :=
  rbind (freq_columns df_master) (fun frame =>
  Ok (map (Pandas.fillna 0) (mean_axis1 frame))).

Definition thresholds (df_master : DataFrame) : result (Q * Q) :=
  rbind (freq_series df_master) (fun series =>
  rbind (Numpy.percentile series 33) (fun q1 =>
  rbind (Numpy.percentile series 66) (fun q2 =>
  Ok (q1, q2)))).

(** [df_input.at[0, 'avg_freq']] *)
Definition at0_avg_freq (df_input : list FeatureRecord) : result float :=
  match df_input with
  | r :: _ => Ok (f_avg_freq r)
  | [] => Raise (KeyError "0")
  end.

(** The fallback of lines 113-115. *)
Definition threshold_label (q1 q2 : Q) (avg_f : float) : string :=
  if ge avg_f (Num q2) then "Level 1"
  else if ge avg_f (Num q1) then "Level 2"
  else "Level 3".

Local Open Scope py_scope.

(** The body of the loop of [predict_levels] for one word: the string
    appended to [results]. *)
Definition predict_word (pipeline : Pipeline) (le : LabelEncoder)
    (df_master : DataFrame) (q1 q2 : Q) (w : string) : M string :=
  df_input <- lift (prepare_input df_master [w]) ;;
  if in_lemme df_master w then
    emit (EPredict df_input) ;;;
    code <- lift (pipeline df_input) ;;
    emit (EInverse code) ;;;
    label <- lift (le code) ;;
    ret ("Level " ++ label)
  else
    avg_f <- lift (at0_avg_freq df_input) ;;
    ret (threshold_label q1 q2 avg_f).

Fixpoint predict_loop (pipeline : Pipeline) (le : LabelEncoder)
    (df_master : DataFrame) (q1 q2 : Q) (words : list string)
    (results : list string) : M (list string) :=
  match words with
  | [] => ret results
  | w :: rest =>
      r <- predict_word pipeline le df_master q1 q2 w ;;
      predict_loop pipeline le df_master q1 q2 rest (results ++ [r])%list
  end.

Definition predict_levels (fs : Files) (df_master : DataFrame)
    (words : list string) : M (list string) :=
  pipeline <- load_pipeline fs ;;
  le <- load_label_encoder fs ;;
  qs <- lift (thresholds df_master) ;;
  predict_loop pipeline le df_master (fst qs) (snd qs) words [].

(* ===================================================================== *)
(** ** The script *)
(* ===================================================================== *)

(** The path of the corpus; its characters outside Latin-1 stand here as
    their UTF-8 bytes. *)
Definition MASTER_PATH : string :=
  "data/mettre_fin_Lexique_translated_v6w_修正済み.csv".

Definition usage : string := "Usage: python predict_level.py <word1> <word2> ...".

Definition print_usage : M unit := emit (EPrint usage).

(** [for word, level in zip(input_words, preds): print(...)] *)
Fixpoint print_results (pairs : list (string * string)) : M unit :=
  match pairs with
  | [] => ret tt
  | (word, level) :: rest =>
      emit (EPrint (word ++ " -> " ++ level)) ;;;
      print_results rest
  end.

(** The [__main__] block, with [input_words = sys.argv[1:]]. *)
Definition main (fs : Files) (df_master : DataFrame)
    (input_words : list string) : M unit :=
  match input_words with
  | [] => print_usage ;;; raise (SystemExitCode 1)
  | _ :: _ =>
      preds <- predict_levels fs df_master input_words ;;
      print_results (combine input_words preds)
  end.

(** The whole script: the corpus is read when the module is loaded, before
    the [__main__] block runs. *)
Definition script (corpus : file DataFrame) (fs : Files)
    (input_words : list string) : M unit :=
  match corpus with
  | Loaded df_master => main fs df_master input_words
  | NotFound =>
      raise (SystemExit ("Error: Master data file not found at '" ++ MASTER_PATH ++ "'."))
  | Unreadable e => raise e
  end.

(** The lines printed in a log. *)
Fixpoint printed (log : list event) : list string :=
  match log with
  | [] => []
  | EPrint line :: rest => line :: printed rest
  | _ :: rest => printed rest
  end.

(** The frames the classifier was called on in a log. *)
Fixpoint predicted (log : list event) : list (list FeatureRecord) :=
  match log with
  | [] => []
  | EPredict df_input :: rest => df_input :: predicted rest
  | _ :: rest => predicted rest
  end.

(* ===================================================================== *)
(** ** Runs of the loop of [predict_levels] *)
(* ===================================================================== *)

Section Runs.

Variables (pipeline : Pipeline) (le : LabelEncoder) (df : DataFrame) (q1 q2 : Q).

(** One pass of the loop body that ends normally: the word, the string it
    appends to [results] and the outside calls it makes. *)
Inductive word_run : string -> string -> list event -> Prop :=
| run_classifier (w : string) (df_input : list FeatureRecord) (code : Z) (label : string) :
    in_lemme df w = true ->
    prepare_input df [w] = Ok df_input ->
    pipeline df_input = Ok code ->
    le code = Ok label ->
    word_run w ("Level " ++ label) [EPredict df_input; EInverse code]
| run_fallback (w : string) (df_input : list FeatureRecord) (avg_f : float) :
    in_lemme df w = false ->
    prepare_input df [w] = Ok df_input ->
    at0_avg_freq df_input = Ok avg_f ->
    word_run w (threshold_label q1 q2 avg_f) [].

(** A run of the whole loop. *)
Inductive loop_run : list string -> list string -> list event -> Prop :=
| loop_done : loop_run [] [] []
| loop_step (w : string) (ws : list string) (r : string) (rs : list string)
    (evs evs' : list event) :
    word_run w r evs ->
    loop_run ws rs evs' ->
    loop_run (w :: ws) (r :: rs) (evs ++ evs')%list.

End Runs.

(** What one pass of the loop does for a word, by its raw membership. *)
Definition routed (pipeline : Pipeline) (le : LabelEncoder) (df : DataFrame)
    (q1 q2 : Q) (w r : string) : Prop :=
  exists fr, prepare_input df [w] = Ok [fr]
    /\ ((In (Str w) (map lemme (rows df))
         /\ exists code label, pipeline [fr] = Ok code /\ le code = Ok label
                               /\ r = "Level " ++ label)
        \/ (~ In (Str w) (map lemme (rows df))
            /\ r = threshold_label q1 q2 (f_avg_freq fr))).

(* ===================================================================== *)
(** ** The averaging policies in words *)
(* ===================================================================== *)

(** The mean of a record's two measures that skips a missing one; there is
    none when both are missing. *)
Definition record_skip_mean (row : CorpusRow) : option Q :=
  match freqlemfilms2 row, freqlemlivres row with
  | Num a, Num b => Some ((a + b) / 2)%Q
  | Num a, NaN => Some a
  | NaN, Num b => Some b
  | NaN, NaN => None
  end.

(** The mean of a record's two measures in which a missing one counts as
    zero. *)
Definition record_zero_fill_mean (row : CorpusRow) : Q :=
  ((Pandas.fillna 0 (freqlemfilms2 row) + Pandas.fillna 0 (freqlemlivres row)) / 2)%Q.

(** The skip-aware means of the records that have one. *)
Fixpoint present_means (rs : list CorpusRow) : list Q :=
  match rs with
  | [] => []
  | row :: rest =>
      match record_skip_mean row with
      | Some m => m :: present_means rest
      | None => present_means rest
      end
  end.

(** The corpus-wide mean of the skip-aware record means. *)
Definition corpus_skip_mean (df : DataFrame) : float :=
  match present_means (rows df) with
  | [] => NaN
  | ms => Num (Pandas.Qsum ms / inject_Z (Z.of_nat (List.length ms)))
  end.

(** The percentile input read as zero-filled record means. *)
Definition zero_filled_series (df : DataFrame) : list Q :=
  map record_zero_fill_mean (rows df).

(** The percentile input: the skip-aware record mean, zero for a record
    with no measure. *)
Definition skip_then_zero (row : CorpusRow) : Q :=
  match record_skip_mean row with
  | Some m => m
  | None => 0%Q
  end.

(** The line printed for a word and its level. *)
Definition result_line (pair : string * string) : string :=
  fst pair ++ " -> " ++ snd pair.

(** A string that is empty or starts with a character that is no blank. *)
Definition starts_clean (s : string) : Prop :=
  match s with
  | EmptyString => True
  | String ch _ => isspace ch = false
  end.

(** [x] lies between [lo] and [hi]. *)
Definition within (lo hi x : Q) : Prop := (lo <= x /\ x <= hi)%Q.

(* ===================================================================== *)
(** ** Sample data *)
(* ===================================================================== *)

Definition chat : CorpusRow :=
  {| lemme := Str "chat"; cgram := Str "NOM"; genre := Str "m";
     freqlemfilms2 := Num 120; freqlemlivres := Num 80 |}.

Definition aller : CorpusRow :=
  {| lemme := Str "aller"; cgram := Str "VER"; genre := Missing;
     freqlemfilms2 := NaN; freqlemlivres := Num 80 |}.

Definition vite : CorpusRow :=
  {| lemme := Str "vite"; cgram := Str "ADV"; genre := Missing;
     freqlemfilms2 := NaN; freqlemlivres := NaN |}.

Definition rare : CorpusRow :=
  {| lemme := Str "zinzolin"; cgram := Str "ADJ"; genre := Str "m";
     freqlemfilms2 := Num 2; freqlemlivres := Num 0 |}.

Definition seldom : CorpusRow :=
  {| lemme := Str "amphigouri"; cgram := Str "NOM"; genre := Str "m";
     freqlemfilms2 := Num 3; freqlemlivres := Num 1 |}.

Definition frame_of (rs : list CorpusRow) : DataFrame :=
  {| has_genre := true; has_freqlemfilms2 := true; has_freqlemlivres := true;
     rows := rs |}.

Definition sample_corpus : DataFrame := frame_of [chat; aller; vite].

(** A corpus whose only frequent word has an empty films measure. *)
Definition gap_corpus : DataFrame := frame_of [aller; rare; seldom].

Definition sample_pipeline : Pipeline := fun _ => Ok 2%Z.

Definition sample_encoder : LabelEncoder :=
  fun code => Ok (if (code =? 2)%Z then "B1" else "A1").

Definition sample_files : Files :=
  {| model_file := Loaded sample_pipeline; encoder_file := Loaded sample_encoder |}.

Definition no_model_files : Files :=
  {| model_file := NotFound; encoder_file := Loaded sample_encoder |}.

(** A second record for "chat", later in the corpus. *)
Definition chat_again : CorpusRow :=
  {| lemme := Str "chat"; cgram := Str "VER"; genre := Missing;
     freqlemfilms2 := Num 1; freqlemlivres := Num 1 |}.

(** A record whose lemma field kept the blanks around it. *)
Definition spaced : CorpusRow :=
  {| lemme := Str " chat "; cgram := Str "NOM"; genre := Str "m";
     freqlemfilms2 := Num 7; freqlemlivres := Num 9 |}.

Definition spaced_corpus : DataFrame := frame_of [spaced; rare].

(** The sample corpus without its films column. *)
Definition no_films_corpus : DataFrame :=
  {| has_genre := true; has_freqlemfilms2 := false; has_freqlemlivres := true;
     rows := [chat; aller; vite] |}.

(** A corpus in which no record has a frequency measure. *)
Definition unmeasured_corpus : DataFrame := frame_of [vite; vite].

(** A classifier that fails on the record of "aller". *)
Definition failing_pipeline : Pipeline :=
  fun df_input =>
    match df_input with
    | fr :: _ =>
        if cell_eqb (f_lemme fr) "aller" then Raise (OtherError "ValueError")
        else Ok 2%Z
    | [] => Ok 2%Z
    end.

Definition failing_files : Files :=
  {| model_file := Loaded failing_pipeline; encoder_file := Loaded sample_encoder |}.


(* ===================================================================== *)
(** * Properties *)
(* ===================================================================== *)

Example strip_chat : strip "  chat	 " = "chat".
Proof. reflexivity. Qed.

Example strip_inner : strip " pomme de terre " = "pomme de terre".
Proof. reflexivity. Qed.


(* ===================================================================== *)
(** ** Percentiles are monotone *)
(* ===================================================================== *)

Section PercentileFacts.

Import Numpy.

Local Open Scope Q_scope.

Lemma lerp_eq (a b t : Q) : lerp a b t == a + (b - a) * t.
Proof.
  unfold lerp. destruct (Qle_bool (1 # 2) t); ring.
Qed.

Lemma lerp_lower (a b t : Q) : a <= b -> 0 <= t -> a <= lerp a b t.
Proof.
  intros Hab Ht. rewrite lerp_eq.
  assert (0 <= (b - a) * t) by (apply Qmult_le_0_compat; lra).
  lra.
Qed.

Lemma lerp_upper (a b t : Q) : a <= b -> t <= 1 -> lerp a b t <= b.
Proof.
  intros Hab Ht. rewrite lerp_eq.
  assert (0 <= (b - a) * (1 - t)) by (apply Qmult_le_0_compat; lra).
  lra.
Qed.

Lemma lerp_mono (a b s t : Q) : a <= b -> s <= t -> lerp a b s <= lerp a b t.
Proof.
  intros Hab Hst. rewrite !lerp_eq.
  assert (0 <= (b - a) * (t - s)) by (apply Qmult_le_0_compat; lra).
  lra.
Qed.

Lemma sort_strongly_sorted (data : list Q) : StronglySorted Qle_b (QSort.sort data).
Proof.
  apply QSort.StronglySorted_sort.
  intros a b c. unfold is_true, QOrder.leb. rewrite !Qle_bool_iff.
  intros; eapply Qle_trans; eassumption.
Qed.

Lemma sort_length (data : list Q) : List.length (QSort.sort data) = List.length data.
Proof.
  symmetry. apply Permutation_length, QSort.Permuted_sort.
Qed.

Lemma strongly_sorted_nth (l : list Q) (d : Q) :
  StronglySorted Qle_b l ->
  forall i j, (i <= j)%nat -> (j < List.length l)%nat -> nth i l d <= nth j l d.
Proof.
  induction 1 as [| x l Hs IH Hall]; intros i j Hij Hj; simpl in Hj.
  - lia.
  - destruct i as [| i], j as [| j]; simpl.
    + apply Qle_refl.
    + rewrite Forall_forall in Hall.
      apply Qle_bool_iff, Hall, nth_In. lia.
    + lia.
    + apply IH; lia.
Qed.

Lemma last_nth (l : list Q) (d : Q) : last l d = nth (List.length l - 1) l d.
Proof.
  induction l as [| x l IH]; [reflexivity |].
  destruct l as [| y l]; [reflexivity |].
  change (last (x :: y :: l) d) with (last (y :: l) d).
  rewrite IH. simpl. rewrite Nat.sub_0_r. reflexivity.
Qed.

Lemma floor_bounds (h : Q) :
  inject_Z (Qfloor h) <= h /\ h < inject_Z (Qfloor h) + 1.
Proof.
  split; [apply Qfloor_le |].
  pose proof (Qlt_floor h) as H. rewrite inject_Z_plus in H. exact H.
Qed.

Lemma at_virtual_index_mono (sorted : list Q) (d0 : Q) (h1 h2 : Q) :
  StronglySorted Qle_b sorted ->
  (0 < List.length sorted)%nat ->
  0 <= h1 -> h1 <= h2 ->
  at_virtual_index sorted d0 (Z.of_nat (List.length sorted)) h1
  <= at_virtual_index sorted d0 (Z.of_nat (List.length sorted)) h2.
Proof.
  intros Hs Hn H0 H12.
  set (n := List.length sorted) in *.
  assert (Hnth : forall i j, (i <= j)%nat -> (j < n)%nat ->
                              nth i sorted d0 <= nth j sorted d0)
    by (apply strongly_sorted_nth, Hs).
  unfold at_virtual_index. rewrite last_nth. fold n.
  destruct (floor_bounds h1) as [Hf1 Hc1], (floor_bounds h2) as [Hf2 Hc2].
  assert (Hz1 : (0 <= Qfloor h1)%Z)
    by (change 0%Z with (Qfloor 0); apply Qfloor_resp_le, H0).
  assert (Hz12 : (Qfloor h1 <= Qfloor h2)%Z) by (apply Qfloor_resp_le, H12).
  (* below the last index, the floor and its successor are valid indices *)
  assert (Hin : forall h, 0 <= h -> ~ inject_Z (Z.of_nat n - 1) <= h ->
                          (Z.to_nat (Qfloor h) + 1 < n + 1)%nat
                          /\ (Z.to_nat (Qfloor h + 1) = Z.to_nat (Qfloor h) + 1)%nat
                          /\ (Z.to_nat (Qfloor h + 1) < n)%nat).
  { intros h Hh Hlt.
    assert (0 <= Qfloor h)%Z by (change 0%Z with (Qfloor 0); apply Qfloor_resp_le, Hh).
    assert (Qfloor h < Z.of_nat n - 1)%Z.
    { apply Z.lt_nge. intros Hge. apply Hlt.
      eapply Qle_trans; [| apply Qfloor_le].
      rewrite <- Zle_Qle. exact Hge. }
    lia. }
  destruct (Qle_bool (inject_Z (Z.of_nat n - 1)) h2) eqn:E2;
    destruct (Qle_bool (inject_Z (Z.of_nat n - 1)) h1) eqn:E1.
  - apply Qle_refl.
  - assert (Hlt1 : ~ inject_Z (Z.of_nat n - 1) <= h1)
      by (rewrite <- Qle_bool_iff, E1; discriminate).
    destruct (Hin h1 H0 Hlt1) as (_ & Hs1 & Hb1).
    eapply Qle_trans.
    + apply lerp_upper; [apply Hnth; lia | lra].
    + apply Hnth; lia.
  - apply Qle_bool_iff in E1.
    assert (Hlt2 : ~ inject_Z (Z.of_nat n - 1) <= h2)
      by (rewrite <- Qle_bool_iff, E2; discriminate).
    exfalso. apply Hlt2. lra.
  - assert (Hlt1 : ~ inject_Z (Z.of_nat n - 1) <= h1)
      by (rewrite <- Qle_bool_iff, E1; discriminate).
    assert (Hlt2 : ~ inject_Z (Z.of_nat n - 1) <= h2)
      by (rewrite <- Qle_bool_iff, E2; discriminate).
    assert (H02 : 0 <= h2) by lra.
    destruct (Hin h1 H0 Hlt1) as (_ & Hs1 & Hb1).
    destruct (Hin h2 H02 Hlt2) as (_ & Hs2 & Hb2).
    destruct (Z.eq_dec (Qfloor h1) (Qfloor h2)) as [Heq | Hne].
    + rewrite Heq. apply lerp_mono; [apply Hnth; lia | lra].
    + eapply Qle_trans; [apply lerp_upper; [apply Hnth; lia | lra] |].
      eapply Qle_trans; [| apply lerp_lower; [apply Hnth; lia | lra]].
      apply Hnth; lia.
Qed.

Lemma percentile_unfold (data : list Q) (p : Q) :
  data <> [] -> 0 <= p -> p <= 100 ->
  percentile data p
  = Ok (at_virtual_index (QSort.sort data) (hd 0 data)
          (Z.of_nat (List.length data))
          (inject_Z (Z.of_nat (List.length data) - 1) * (p / 100))).
Proof.
  intros Hne H0 H100. destruct data as [| d0 rest]; [congruence |].
  unfold percentile, at_virtual_index.
  apply Qle_bool_iff in H0, H100. rewrite H0, H100.
  cbn [negb andb hd]. cbv zeta.
  destruct (Qle_bool (inject_Z _) _); reflexivity.
Qed.

Lemma percentile_range (data : list Q) (p x : Q) :
  percentile data p = Ok x -> data <> [] /\ 0 <= p /\ p <= 100.
Proof.
  unfold percentile.
  destruct (Qle_bool 0 p) eqn:E0; [| discriminate].
  destruct (Qle_bool p 100) eqn:E1; [| discriminate].
  destruct data; [discriminate |].
  intros _. repeat split; try (apply Qle_bool_iff; assumption). discriminate.
Qed.

(** On non-empty data a lower percentage gives a lower percentile. *)
Lemma percentile_mono (data : list Q) (p1 p2 a b : Q) :
  p1 <= p2 ->
  percentile data p1 = Ok a -> percentile data p2 = Ok b -> a <= b.
Proof.
  intros H12 Ha Hb.
  destruct (percentile_range _ _ _ Ha) as (Hne & Hp1 & Hq1).
  destruct (percentile_range _ _ _ Hb) as (_ & Hp2 & Hq2).
  rewrite percentile_unfold in Ha, Hb by assumption.
  assert (Ea : a = at_virtual_index (QSort.sort data) (hd 0 data)
                     (Z.of_nat (List.length data))
                     (inject_Z (Z.of_nat (List.length data) - 1) * (p1 / 100)))
    by congruence.
  assert (Eb : b = at_virtual_index (QSort.sort data) (hd 0 data)
                     (Z.of_nat (List.length data))
                     (inject_Z (Z.of_nat (List.length data) - 1) * (p2 / 100)))
    by congruence.
  rewrite Ea, Eb. clear Ea Eb Ha Hb.
  rewrite <- (sort_length data).
  assert (Hlen : (0 < List.length (QSort.sort data))%nat).
  { rewrite sort_length. destruct data; [congruence | simpl; lia]. }
  assert (Hn : 0 <= inject_Z (Z.of_nat (List.length (QSort.sort data)) - 1)).
  { change 0 with (inject_Z 0). rewrite <- Zle_Qle. lia. }
  apply at_virtual_index_mono; [apply sort_strongly_sorted | exact Hlen | |];
    unfold Qdiv; change (/ 100) with (1 # 100).
  - apply Qmult_le_0_compat; [exact Hn | lra].
  - set (k := inject_Z _) in *.
    assert (0 <= k * (p2 * (1 # 100) - p1 * (1 # 100)))
      by (apply Qmult_le_0_compat; lra).
    lra.
Qed.

Lemma percentile_total (data : list Q) (p : Q) :
  data <> [] -> 0 <= p -> p <= 100 -> exists x, percentile data p = Ok x.
Proof.
  intros Hne H0 H100.
  rewrite percentile_unfold by assumption. eexists; reflexivity.
Qed.

End PercentileFacts.

(* ===================================================================== *)
(** ** Facts about the Python values *)
(* ===================================================================== *)

Lemma ge_num (a b : Q) : ge (Num a) (Num b) = true <-> (b <= a)%Q.
Proof. simpl. apply Qle_bool_iff. Qed.

Lemma ge_num_false (a b : Q) : ge (Num a) (Num b) = false <-> (a < b)%Q.
Proof.
  simpl. split; intros H.
  - apply Qnot_le_lt. intros Hle. apply Qle_bool_iff in Hle. congruence.
  - destruct (Qle_bool b a) eqn:E; [| reflexivity].
    apply Qle_bool_iff in E. exfalso. exact (Qlt_not_le _ _ H E).
Qed.

Lemma in_lemme_iff (df : DataFrame) (w : string) :
  in_lemme df w = true <-> In (Str w) (map lemme (rows df)).
Proof.
  unfold in_lemme. rewrite existsb_exists, in_map_iff.
  split; intros (row & H1 & H2); exists row.
  - split; [| exact H1].
    destruct (lemme row) as [s |]; simpl in H2; [| discriminate].
    apply String.eqb_eq in H2. congruence.
  - split; [exact H2 |]. rewrite H1. simpl. apply String.eqb_refl.
Qed.

Lemma select_lemme_nil_iff (df : DataFrame) (w : string) :
  select_lemme df w = [] <-> in_lemme df w = false.
Proof.
  unfold select_lemme, in_lemme.
  induction (rows df) as [| row l IH]; simpl; [tauto |].
  destruct (cell_eqb (lemme row) w); simpl; [split; discriminate | exact IH].
Qed.

Lemma select_lemme_head (df : DataFrame) (w : string) (row : CorpusRow) (rest : list CorpusRow) :
  select_lemme df w = row :: rest -> In row (rows df) /\ lemme row = Str w.
Proof.
  unfold select_lemme. intros H.
  assert (Hin : In row (filter (fun r => cell_eqb (lemme r) w) (rows df)))
    by (rewrite H; left; reflexivity).
  apply filter_In in Hin. destruct Hin as [Hin Heq]. split; [exact Hin |].
  destruct (lemme row) as [s |]; simpl in Heq; [| discriminate].
  apply String.eqb_eq in Heq. congruence.
Qed.

Lemma prepare_input_single (df : DataFrame) (w : string) :
  prepare_input df [w] = rbind (prepare_row df w) (fun r => Ok [r]).
Proof.
  unfold prepare_input. simpl. destruct (prepare_row df w); reflexivity.
Qed.

(* ===================================================================== *)
(** ** The loop of [predict_levels] and its runs *)
(* ===================================================================== *)

Section Resolution.

Variables (pipeline : Pipeline) (le : LabelEncoder) (df : DataFrame) (q1 q2 : Q).

Lemma predict_word_ok (w r : string) (log log' : list event) :
  predict_word pipeline le df q1 q2 w log = (Ok r, log') <->
  exists evs, word_run pipeline le df q1 q2 w r evs /\ log' = (log ++ evs)%list.
Proof.
  unfold predict_word, bind, lift, emit, ret. split.
  - destruct (prepare_input df [w]) as [df_input |] eqn:Ep; [| discriminate].
    destruct (in_lemme df w) eqn:Em.
    + destruct (pipeline df_input) as [code |] eqn:Ec; [| discriminate].
      destruct (le code) as [label |] eqn:El; [| discriminate].
      intros H. injection H as <- <-.
      exists [EPredict df_input; EInverse code]. split.
      * eapply run_classifier; eassumption.
      * rewrite <- app_assoc. reflexivity.
    + destruct (at0_avg_freq df_input) as [avg_f |] eqn:Ea; [| discriminate].
      intros H. injection H as <- <-.
      exists []. split; [eapply run_fallback; eassumption | now rewrite app_nil_r].
  - intros (evs & Hrun & ->).
    destruct Hrun as [w df_input code label Hm Hp Hc Hl | w df_input avg_f Hm Hp Ha];
      rewrite Hp, Hm.
    + rewrite Hc, Hl. rewrite <- app_assoc. reflexivity.
    + rewrite Ha, app_nil_r. reflexivity.
Qed.

Lemma predict_loop_ok (words results preds : list string) (log log' : list event) :
  predict_loop pipeline le df q1 q2 words results log = (Ok preds, log') <->
  exists rs evs, loop_run pipeline le df q1 q2 words rs evs
                 /\ preds = (results ++ rs)%list /\ log' = (log ++ evs)%list.
Proof.
  revert results log. induction words as [| w ws IH]; intros results log; simpl.
  - unfold ret. split.
    + intros H. injection H as <- <-. exists [], []. rewrite !app_nil_r.
      repeat split. constructor.
    + intros (rs & evs & Hrun & -> & ->). inversion Hrun; subst.
      rewrite !app_nil_r. reflexivity.
  - unfold bind. split.
    + destruct (predict_word pipeline le df q1 q2 w log) as [[r | e] log1] eqn:Ew;
        [| discriminate].
      apply predict_word_ok in Ew. destruct Ew as (evs & Hw & ->).
      intros H. apply IH in H. destruct H as (rs & evs' & Hl & -> & ->).
      exists (r :: rs), (evs ++ evs')%list.
      rewrite <- !app_assoc. repeat split. constructor; assumption.
    + intros (rs & evs & Hrun & -> & ->). inversion Hrun; subst.
      assert (Ew : predict_word pipeline le df q1 q2 w log = (Ok r, (log ++ evs0)%list))
        by (apply predict_word_ok; eauto).
      rewrite Ew. apply IH. exists rs0, evs'. rewrite <- !app_assoc. auto.
Qed.

(** The loop prints nothing, however it ends. *)
Lemma predict_word_printed (w : string) (log log' : list event) (r : result string) :
  predict_word pipeline le df q1 q2 w log = (r, log') -> printed log' = printed log.
Proof.
  assert (Hp : forall l evs, printed evs = [] -> printed (l ++ evs) = printed l).
  { intros l evs He. induction l as [| [? | ? | ?] l IHl]; simpl;
      rewrite ?IHl; auto. }
  unfold predict_word, bind, lift, emit, ret.
  destruct (prepare_input df [w]) as [df_input |]; [| intros H; injection H as <- <-; reflexivity].
  destruct (in_lemme df w).
  - destruct (pipeline df_input) as [code |].
    + destruct (le code); intros H; injection H as <- <-;
        rewrite <- app_assoc; apply Hp; reflexivity.
    + intros H; injection H as <- <-. apply Hp; reflexivity.
  - destruct (at0_avg_freq df_input); intros H; injection H as <- <-; reflexivity.
Qed.

Lemma predict_loop_printed (words results : list string) (log log' : list event)
    (r : result (list string)) :
  predict_loop pipeline le df q1 q2 words results log = (r, log') ->
  printed log' = printed log.
Proof.
  revert results log. induction words as [| w ws IH]; intros results log; simpl.
  - unfold ret. intros H; injection H as <- <-. reflexivity.
  - unfold bind.
    destruct (predict_word pipeline le df q1 q2 w log) as [[x | e] log1] eqn:Ew;
      apply predict_word_printed in Ew.
    + intros H. apply IH in H. congruence.
    + intros H; injection H as <- <-. exact Ew.
Qed.

Lemma loop_run_length (words rs : list string) (evs : list event) :
  loop_run pipeline le df q1 q2 words rs evs -> List.length rs = List.length words.
Proof. induction 1; simpl; congruence. Qed.

Lemma loop_run_nth (words rs : list string) (evs : list event) :
  loop_run pipeline le df q1 q2 words rs evs ->
  forall i w, nth_error words i = Some w ->
  exists r evs_w, nth_error rs i = Some r /\ word_run pipeline le df q1 q2 w r evs_w.
Proof.
  induction 1 as [| w0 ws r rs evs evs' Hw Hl IH]; intros i w Hi.
  - destruct i; discriminate.
  - destruct i as [| i]; simpl in *.
    + injection Hi as <-. eauto.
    + apply IH, Hi.
Qed.

End Resolution.

(** A normal end of [predict_levels]: both artifacts loaded, the thresholds
    computed, and the loop run to its end. *)
Lemma predict_levels_ok (fs : Files) (df : DataFrame) (words preds : list string)
    (log log' : list event) :
  predict_levels fs df words log = (Ok preds, log') <->
  exists pipeline le q1 q2 evs,
    model_file fs = Loaded pipeline /\ encoder_file fs = Loaded le
    /\ thresholds df = Ok (q1, q2)
    /\ loop_run pipeline le df q1 q2 words preds evs
    /\ log' = (log ++ evs)%list.
Proof.
  unfold predict_levels, load_pipeline, load_label_encoder, bind, lift, ret, raise.
  split.
  - destruct (model_file fs) as [pipeline | | e1]; [| discriminate | discriminate].
    destruct (encoder_file fs) as [le | | e2]; [| discriminate | discriminate].
    destruct (thresholds df) as [[q1 q2] |]; [| discriminate].
    intros H. apply predict_loop_ok in H. destruct H as (rs & evs & Hrun & -> & ->).
    exists pipeline, le, q1, q2, evs. simpl in Hrun. auto.
  - intros (pipeline & le & q1 & q2 & evs & -> & -> & -> & Hrun & ->).
    apply predict_loop_ok. exists preds, evs. auto.
Qed.

(** [predict_levels] prints nothing, however it ends. *)
Lemma predict_levels_printed (fs : Files) (df : DataFrame) (words : list string)
    (log log' : list event) (r : result (list string)) :
  predict_levels fs df words log = (r, log') -> printed log' = printed log.
Proof.
  unfold predict_levels, load_pipeline, load_label_encoder, bind, lift, ret, raise.
  destruct (model_file fs) as [pipeline | | e1];
    [| intros H; injection H as <- <-; reflexivity ..].
  destruct (encoder_file fs) as [le | | e2];
    [| intros H; injection H as <- <-; reflexivity ..].
  destruct (thresholds df) as [[q1 q2] |];
    [| intros H; injection H as <- <-; reflexivity].
  apply predict_loop_printed.
Qed.

(** With both artifacts loaded, thresholds computed and a classifier and an
    encoder that answer, [predict_levels] ends normally. *)
Lemma predict_loop_total (pipeline : Pipeline) (le : LabelEncoder) (df : DataFrame)
    (q1 q2 : Q) (words : list string) :
  has_freqlemfilms2 df = true -> has_freqlemlivres df = true ->
  (forall x, exists code, pipeline x = Ok code) ->
  (forall code, exists label, le code = Ok label) ->
  exists rs evs, loop_run pipeline le df q1 q2 words rs evs.
Proof.
  intros Hf Hb Hp Hl. induction words as [| w ws (rs & evs & IH)].
  - exists [], []. constructor.
  - assert (Hrow : exists fr, prepare_input df [w] = Ok [fr]).
    { rewrite prepare_input_single. unfold prepare_row, freq_columns.
      rewrite Hf, Hb. destruct (select_lemme df (strip w)); eexists; reflexivity. }
    destruct Hrow as (fr & Hrow).
    destruct (in_lemme df w) eqn:Em.
    + destruct (Hp [fr]) as (code & Hc). destruct (Hl code) as (label & Hlab).
      eexists (_ :: rs), (_ ++ evs)%list. constructor; [| exact IH].
      eapply run_classifier; eassumption.
    + eexists (_ :: rs), (_ ++ evs)%list. constructor; [| exact IH].
      eapply run_fallback; [exact Em | exact Hrow | reflexivity].
Qed.

Lemma thresholds_inv (df : DataFrame) (q1 q2 : Q) :
  thresholds df = Ok (q1, q2) ->
  exists series, freq_series df = Ok series
                 /\ Numpy.percentile series 33 = Ok q1
                 /\ Numpy.percentile series 66 = Ok q2.
Proof.
  unfold thresholds.
  destruct (freq_series df) as [series |]; [| discriminate]. simpl.
  destruct (Numpy.percentile series 33) as [a |] eqn:Ea; [| discriminate]. simpl.
  destruct (Numpy.percentile series 66) as [b |] eqn:Eb; [| discriminate]. simpl.
  intros H. injection H as <- <-. exists series. auto.
Qed.

Lemma thresholds_le (df : DataFrame) (q1 q2 : Q) :
  thresholds df = Ok (q1, q2) -> (q1 <= q2)%Q.
Proof.
  intros H. apply thresholds_inv in H. destruct H as (series & _ & H1 & H2).
  eapply percentile_mono; [| exact H1 | exact H2]. discriminate.
Qed.

Lemma thresholds_total (df : DataFrame) :
  rows df <> [] -> has_freqlemfilms2 df = true -> has_freqlemlivres df = true ->
  exists q1 q2, thresholds df = Ok (q1, q2).
Proof.
  intros Hne Hf Hb. unfold thresholds, freq_series, freq_columns.
  rewrite Hf, Hb. simpl.
  set (series := map (Pandas.fillna 0) _).
  assert (Hs : series <> []).
  { subst series. unfold mean_axis1. destruct (rows df); [congruence | discriminate]. }
  destruct (percentile_total series 33 Hs) as (a & ->); [discriminate .. |].
  destruct (percentile_total series 66 Hs) as (b & ->); [discriminate .. |].
  simpl. eauto.
Qed.

(* ===================================================================== *)
(** ** The thresholds *)
(* ===================================================================== *)

(** C7.  The thresholds of a corpus are ordered: whenever lines 99-100
    compute the pair [(q1, q2)], [q1 <= q2]; and they do compute it for every
    corpus that has the two frequency columns and at least one row. *)
Theorem thresholds_ordered (df : DataFrame) :
  (rows df <> [] -> has_freqlemfilms2 df = true -> has_freqlemlivres df = true ->
   exists q1 q2, thresholds df = Ok (q1, q2))
  /\ (forall q1 q2, thresholds df = Ok (q1, q2) -> (q1 <= q2)%Q).
Proof.
  split.
  - apply thresholds_total.
  - apply thresholds_le.
Qed.

Lemma thresholds_ordered_witness :
  rows sample_corpus <> []
  /\ exists q1 q2, thresholds sample_corpus = Ok (q1, q2) /\ (q1 <= q2)%Q.
Proof.
  assert (Hne : rows sample_corpus <> []) by discriminate.
  split; [exact Hne |].
  destruct (thresholds_ordered sample_corpus) as [Htot Hle].
  destruct (Htot Hne eq_refl eq_refl) as (q1 & q2 & E).
  exists q1, q2. split; [exact E | exact (Hle q1 q2 E)].
Defined.

(* ===================================================================== *)
(** ** The fallback labels *)
(* ===================================================================== *)

Lemma threshold_label_in (q1 q2 : Q) (x : float) :
  In (threshold_label q1 q2 x) ["Level 1"; "Level 2"; "Level 3"].
Proof.
  unfold threshold_label.
  destruct (ge x (Num q2)); [simpl; auto |].
  destruct (ge x (Num q1)); simpl; auto.
Qed.

Lemma threshold_label_num (q1 q2 a : Q) :
  (q1 <= q2)%Q ->
  ((q2 <= a)%Q -> threshold_label q1 q2 (Num a) = "Level 1")
  /\ ((q1 <= a)%Q -> (a < q2)%Q -> threshold_label q1 q2 (Num a) = "Level 2")
  /\ ((a < q1)%Q -> threshold_label q1 q2 (Num a) = "Level 3").
Proof.
  intros H12. unfold threshold_label. repeat split.
  - intros H. apply ge_num in H. rewrite H. reflexivity.
  - intros H1 H2. apply ge_num in H1. apply ge_num_false in H2.
    rewrite H2, H1. reflexivity.
  - intros H.
    assert (H2 : (a < q2)%Q) by (eapply Qlt_le_trans; eassumption).
    apply ge_num_false in H, H2. rewrite H2, H. reflexivity.
Qed.

Lemma word_run_fallback (pipeline : Pipeline) (le : LabelEncoder) (df : DataFrame)
    (q1 q2 : Q) (w r : string) (evs : list event) :
  word_run pipeline le df q1 q2 w r evs ->
  in_lemme df w = false ->
  exists fr, prepare_input df [w] = Ok [fr]
             /\ r = threshold_label q1 q2 (f_avg_freq fr) /\ evs = [].
Proof.
  intros Hrun Hm.
  destruct Hrun as [w df_input code label Hm' _ _ _ | w df_input avg_f _ Hp Ha];
    [congruence |].
  rewrite prepare_input_single in Hp.
  destruct (prepare_row df w) as [fr |] eqn:Er; [| discriminate].
  simpl in Hp. injection Hp as <-. simpl in Ha. injection Ha as <-.
  exists fr. rewrite prepare_input_single, Er. auto.
Qed.

Lemma word_run_classifier (pipeline : Pipeline) (le : LabelEncoder) (df : DataFrame)
    (q1 q2 : Q) (w r : string) (evs : list event) :
  word_run pipeline le df q1 q2 w r evs ->
  in_lemme df w = true ->
  exists fr code label,
    prepare_input df [w] = Ok [fr] /\ pipeline [fr] = Ok code /\ le code = Ok label
    /\ r = "Level " ++ label /\ evs = [EPredict [fr]; EInverse code].
Proof.
  intros Hrun Hm.
  destruct Hrun as [w df_input code label _ Hp Hc Hl | w df_input avg_f Hm' _ _];
    [| congruence].
  rewrite prepare_input_single in Hp.
  destruct (prepare_row df w) as [fr |] eqn:Er; [| discriminate].
  simpl in Hp. injection Hp as <-.
  exists fr, code, label. rewrite prepare_input_single, Er. auto.
Qed.

Lemma not_in_lemme (df : DataFrame) (w : string) :
  ~ In (Str w) (map lemme (rows df)) <-> in_lemme df w = false.
Proof.
  rewrite <- in_lemme_iff. destruct (in_lemme df w); split; congruence.
Qed.

(** C1.  A word whose raw form is not in the lemma column gets its label
    from the comparison of its average frequency with the thresholds of the
    batch: [avg >= q2] gives "Level 1", [q1 <= avg < q2] gives "Level 2",
    [avg < q1] gives "Level 3"; the label is always one of these three; an
    average equal to [q2] gives "Level 1" and one equal to [q1], below [q2],
    gives "Level 2". *)
Theorem fallback_label_by_thresholds (fs : Files) (df : DataFrame)
    (words preds : list string) (log log' : list event) :
  predict_levels fs df words log = (Ok preds, log') ->
  forall (i : nat) (w : string),
    nth_error words i = Some w ->
    ~ In (Str w) (map lemme (rows df)) ->
    exists q1 q2 fr label,
      thresholds df = Ok (q1, q2)
      /\ prepare_input df [w] = Ok [fr]
      /\ nth_error preds i = Some label
      /\ In label ["Level 1"; "Level 2"; "Level 3"]
      /\ forall a : Q, f_avg_freq fr = Num a ->
           ((q2 <= a)%Q -> label = "Level 1")
           /\ ((q1 <= a)%Q -> (a < q2)%Q -> label = "Level 2")
           /\ ((a < q1)%Q -> label = "Level 3")
           /\ ((a == q2)%Q -> label = "Level 1")
           /\ ((a == q1)%Q -> (q1 < q2)%Q -> label = "Level 2").
Proof.
  intros Hrun i w Hi Hout.
  apply predict_levels_ok in Hrun.
  destruct Hrun as (pipeline & le & q1 & q2 & evs & _ & _ & Hth & Hloop & _).
  destruct (loop_run_nth _ _ _ _ _ _ _ _ Hloop i w Hi) as (r & evs_w & Hr & Hw).
  apply not_in_lemme in Hout.
  destruct (word_run_fallback _ _ _ _ _ _ _ _ Hw Hout) as (fr & Hp & -> & _).
  exists q1, q2, fr, (threshold_label q1 q2 (f_avg_freq fr)).
  assert (H12 : (q1 <= q2)%Q) by (eapply thresholds_le; eassumption).
  split; [exact Hth |]. split; [exact Hp |]. split; [exact Hr |].
  split; [apply threshold_label_in |].
  intros a Ha. rewrite Ha.
  destruct (threshold_label_num q1 q2 a H12) as (L1 & L2 & L3).
  split; [exact L1 |]. split; [exact L2 |]. split; [exact L3 |]. split.
  - intros Heq. apply L1. rewrite Heq. apply Qle_refl.
  - intros Heq Hlt. apply L2; rewrite Heq; [apply Qle_refl | exact Hlt].
Qed.

Lemma fallback_label_by_thresholds_witness :
  exists q1 q2 fr label,
    thresholds sample_corpus = Ok (q1, q2)
    /\ prepare_input sample_corpus ["xyzzy123"] = Ok [fr]
    /\ nth_error ["Level B1"; "Level 1"] 1 = Some label
    /\ In label ["Level 1"; "Level 2"; "Level 3"]
    /\ forall a : Q, f_avg_freq fr = Num a ->
         ((q2 <= a)%Q -> label = "Level 1")
         /\ ((q1 <= a)%Q -> (a < q2)%Q -> label = "Level 2")
         /\ ((a < q1)%Q -> label = "Level 3")
         /\ ((a == q2)%Q -> label = "Level 1")
         /\ ((a == q1)%Q -> (q1 < q2)%Q -> label = "Level 2").
Proof.
  apply (fallback_label_by_thresholds sample_files sample_corpus
           ["chat"; "xyzzy123"] ["Level B1"; "Level 1"] []
           [EPredict [{| f_lemme := Str "chat"; f_cgram := Str "NOM";
                         f_genre := Str "m"; f_avg_freq := Num (200 # 2) |}];
            EInverse 2] eq_refl 1%nat "xyzzy123" eq_refl).
  simpl. intros [H | [H | [H | []]]]; discriminate.
Defined.

(* ===================================================================== *)
(** ** Routing *)
(* ===================================================================== *)

Lemma predicted_app (l1 l2 : list event) :
  predicted (l1 ++ l2) = (predicted l1 ++ predicted l2)%list.
Proof.
  induction l1 as [| [? | ? | ?] l1 IH]; simpl; rewrite ?IH; reflexivity.
Qed.

Lemma loop_run_routed (pipeline : Pipeline) (le : LabelEncoder) (df : DataFrame)
    (q1 q2 : Q) (words rs : list string) (evs : list event) :
  loop_run pipeline le df q1 q2 words rs evs ->
  Forall2 (routed pipeline le df q1 q2) words rs
  /\ Forall2 (fun w df_input => In (Str w) (map lemme (rows df))
                                /\ prepare_input df [w] = Ok df_input)
       (filter (in_lemme df) words) (predicted evs).
Proof.
  induction 1 as [| w ws r rs evs evs' Hw Hl [IH1 IH2]]; [split; constructor |].
  rewrite predicted_app. simpl filter.
  destruct (in_lemme df w) eqn:Em.
  - destruct (word_run_classifier _ _ _ _ _ _ _ _ Hw Em)
      as (fr & code & label & Hp & Hc & Hlab & -> & ->).
    assert (Hin : In (Str w) (map lemme (rows df))) by (apply in_lemme_iff, Em).
    split.
    + constructor; [| exact IH1]. exists fr. split; [exact Hp |]. left.
      split; [exact Hin |]. exists code, label. auto.
    + simpl. constructor; [split; assumption | exact IH2].
  - destruct (word_run_fallback _ _ _ _ _ _ _ _ Hw Em) as (fr & Hp & -> & ->).
    split.
    + constructor; [| exact IH1]. exists fr. split; [exact Hp |]. right.
      split; [apply not_in_lemme, Em | reflexivity].
    + exact IH2.
Qed.

(** C2.  The path a word takes is decided by whether its raw, untrimmed
    form is in the lemma column: a member gets the label the encoder gives
    for the classifier's code, a non-member gets the threshold label; and the
    classifier is called on exactly the members, once each, in input order. *)
Theorem route_by_raw_membership (fs : Files) (df : DataFrame)
    (words preds : list string) (log' : list event) :
  predict_levels fs df words [] = (Ok preds, log') ->
  exists pipeline le q1 q2,
    model_file fs = Loaded pipeline /\ encoder_file fs = Loaded le
    /\ thresholds df = Ok (q1, q2)
    /\ Forall2 (routed pipeline le df q1 q2) words preds
    /\ Forall2 (fun w df_input => In (Str w) (map lemme (rows df))
                                  /\ prepare_input df [w] = Ok df_input)
         (filter (in_lemme df) words) (predicted log').
Proof.
  intros Hrun. apply predict_levels_ok in Hrun.
  destruct Hrun as (pipeline & le & q1 & q2 & evs & Hm & He & Hth & Hloop & ->).
  exists pipeline, le, q1, q2.
  destruct (loop_run_routed _ _ _ _ _ _ _ _ Hloop) as [H1 H2].
  simpl. auto.
Qed.

Lemma route_by_raw_membership_witness :
  exists pipeline le q1 q2,
    model_file sample_files = Loaded pipeline
    /\ encoder_file sample_files = Loaded le
    /\ thresholds sample_corpus = Ok (q1, q2)
    /\ Forall2 (routed pipeline le sample_corpus q1 q2)
         ["chat"; " chat"; "xyzzy123"] ["Level B1"; "Level 1"; "Level 1"]
    /\ Forall2 (fun w df_input => In (Str w) (map lemme (rows sample_corpus))
                                  /\ prepare_input sample_corpus [w] = Ok df_input)
         (filter (in_lemme sample_corpus) ["chat"; " chat"; "xyzzy123"])
         (predicted
            [EPredict [{| f_lemme := Str "chat"; f_cgram := Str "NOM";
                          f_genre := Str "m"; f_avg_freq := Num (200 # 2) |}];
             EInverse 2]).
Proof.
  apply (route_by_raw_membership sample_files sample_corpus
           ["chat"; " chat"; "xyzzy123"] ["Level B1"; "Level 1"; "Level 1"]).
  reflexivity.
Defined.

(* ===================================================================== *)
(** ** The two averaging policies *)
(* ===================================================================== *)

Lemma mean_skipna_pair (row : CorpusRow) :
  match record_skip_mean row with
  | Some m => exists m', Pandas.mean_skipna [freqlemfilms2 row; freqlemlivres row] = Num m'
                         /\ (m' == m)%Q
  | None => Pandas.mean_skipna [freqlemfilms2 row; freqlemlivres row] = NaN
  end.
Proof.
  unfold record_skip_mean, Pandas.mean_skipna.
  destruct (freqlemfilms2 row) as [a |], (freqlemlivres row) as [b |]; simpl;
    try reflexivity; eexists; (split; [reflexivity |]); unfold Pandas.Qsum; simpl; field.
Qed.

Lemma Qsum_compat (l l' : list Q) :
  Forall2 Qeq l l' -> (Pandas.Qsum l == Pandas.Qsum l')%Q.
Proof.
  induction 1 as [| x y l l' Hxy _ IH]; simpl; [reflexivity |].
  rewrite Hxy, IH. reflexivity.
Qed.

Lemma Forall2_length_eq {A B} (R : A -> B -> Prop) (l : list A) (l' : list B) :
  Forall2 R l l' -> List.length l = List.length l'.
Proof. induction 1; simpl; congruence. Qed.

Lemma dropna_row_means (rs : list CorpusRow) :
  Forall2 Qeq
    (Pandas.dropna
       (mean_axis1 (map (fun row => [freqlemfilms2 row; freqlemlivres row]) rs)))
    (present_means rs).
Proof.
  induction rs as [| row rs IH]; [constructor |].
  cbn [map mean_axis1 present_means]. fold (mean_axis1).
  pose proof (mean_skipna_pair row) as H.
  destruct (record_skip_mean row) as [m |].
  - destruct H as (m' & -> & Hm). cbn [Pandas.dropna]. constructor; assumption.
  - rewrite H. cbn [Pandas.dropna]. exact IH.
Qed.

Lemma global_mean_is_skip_mean (df : DataFrame) (frame : list (list float)) :
  freq_columns df = Ok frame ->
  same (Pandas.mean_skipna (mean_axis1 frame)) (corpus_skip_mean df).
Proof.
  unfold freq_columns.
  destruct (has_freqlemfilms2 df); [| discriminate].
  destruct (has_freqlemlivres df); [| discriminate].
  simpl. intros H. injection H as <-.
  pose proof (dropna_row_means (rows df)) as HF.
  unfold Pandas.mean_skipna, corpus_skip_mean.
  pose proof (Forall2_length_eq _ _ _ HF) as Hlen.
  pose proof (Qsum_compat _ _ HF) as Hsum.
  destruct (Pandas.dropna _) as [| x xs]; destruct (present_means (rows df)) as [| y ys];
    try discriminate; simpl; [exact I |].
  simpl in Hlen. injection Hlen as Hlen.
  change (Pandas.Qsum (x :: xs) / inject_Z (Z.of_nat (S (List.length xs)))
          == Pandas.Qsum (y :: ys) / inject_Z (Z.of_nat (S (List.length ys))))%Q.
  rewrite Hsum, Hlen. reflexivity.
Qed.

(** C6.  A word whose trimmed form matches no corpus lemma gets the feature
    record with the trimmed word as lemma, category "unknown", gender
    "none", and as average frequency the corpus-wide mean of the record means
    that skip missing measures, records without any measure left out. *)
Theorem unknown_word_feature (df : DataFrame) (w : string) :
  has_freqlemfilms2 df = true -> has_freqlemlivres df = true ->
  ~ In (Str (strip w)) (map lemme (rows df)) ->
  exists avg,
    prepare_input df [w]
    = Ok [{| f_lemme := Str (strip w); f_cgram := Str "unknown";
             f_genre := Str "none"; f_avg_freq := avg |}]
    /\ same avg (corpus_skip_mean df).
Proof.
  intros Hf Hb Hout.
  apply not_in_lemme, select_lemme_nil_iff in Hout.
  rewrite prepare_input_single. unfold prepare_row. rewrite Hout.
  destruct (freq_columns df) as [frame |] eqn:Ef.
  - simpl. eexists. split; [reflexivity |].
    apply global_mean_is_skip_mean, Ef.
  - unfold freq_columns in Ef. rewrite Hf, Hb in Ef. discriminate.
Qed.

Lemma unknown_word_feature_witness :
  exists avg,
    prepare_input sample_corpus [" xyzzy123 "]
    = Ok [{| f_lemme := Str "xyzzy123"; f_cgram := Str "unknown";
             f_genre := Str "none"; f_avg_freq := avg |}]
    /\ same avg (Num 90).
Proof.
  destruct (unknown_word_feature sample_corpus " xyzzy123 " eq_refl eq_refl)
    as (avg & H1 & H2).
  - simpl. intros [H | [H | [H | []]]]; discriminate.
  - exists avg. split; [exact H1 |].
    destruct avg as [a |]; [| exact H2].
    simpl in H2 |- *. rewrite H2. reflexivity.
Defined.

(* ===================================================================== *)
(** ** The series under the thresholds *)
(* ===================================================================== *)

(** C3, as stated, fails: a record with an empty films measure and 80 for
    books enters the percentile input as 80, not as the zero-filled mean 40,
    and both thresholds of that one-record corpus are 80, not 40. *)
Lemma zero_filled_series_counterexample :
  exists series q1 q2,
    freq_series (frame_of [aller]) = Ok series
    /\ thresholds (frame_of [aller]) = Ok (q1, q2)
    /\ Forall2 Qeq series [80%Q]
    /\ zero_filled_series (frame_of [aller]) = [(80 / 2)%Q]
    /\ ~ Forall2 Qeq series (zero_filled_series (frame_of [aller]))
    /\ (q1 == 80)%Q /\ (q2 == 80)%Q.
Proof.
  eexists. eexists. eexists.
  split; [reflexivity |]. split; [vm_compute; reflexivity |].
  split; [repeat constructor |]. split; [reflexivity |].
  split; [| split; reflexivity].
  intros H. inversion H as [| x y l l' Hxy _]; subst.
  vm_compute in Hxy. discriminate.
Qed.

Lemma freq_series_rows (df : DataFrame) (series : list Q) :
  freq_series df = Ok series ->
  Forall2 (fun row m => (m == skip_then_zero row)%Q) (rows df) series.
Proof.
  unfold freq_series, freq_columns.
  destruct (has_freqlemfilms2 df); [| discriminate].
  destruct (has_freqlemlivres df); [| discriminate].
  simpl. intros H. injection H as <-.
  induction (rows df) as [| row rs IH]; [constructor |].
  cbn [map mean_axis1]. constructor; [| exact IH].
  unfold skip_then_zero. pose proof (mean_skipna_pair row) as H.
  destruct (record_skip_mean row) as [m |].
  - destruct H as (m' & -> & Hm). exact Hm.
  - rewrite H. reflexivity.
Qed.

(** C3, amended.  The percentile input has one entry per corpus record: the
    mean of the record's present measures (a missing measure is skipped, so
    one present measure [f] alone contributes [f]), and zero for a record
    with both measures missing; [q1] and [q2] are the 33rd and the 66th
    percentile of that sequence. *)
Theorem freq_series_skips_missing (df : DataFrame) (series : list Q) :
  freq_series df = Ok series ->
  Forall2 (fun row m =>
             match freqlemfilms2 row, freqlemlivres row with
             | Num a, Num b => m == (a + b) / 2
             | Num f, NaN => m == f
             | NaN, Num f => m == f
             | NaN, NaN => m == 0
             end%Q) (rows df) series
  /\ forall q1 q2, thresholds df = Ok (q1, q2) <->
                   Numpy.percentile series 33 = Ok q1
                   /\ Numpy.percentile series 66 = Ok q2.
Proof.
  intros Hs. split.
  - apply freq_series_rows in Hs.
    induction Hs as [| row m rs ms Hm _ IH]; constructor; [| exact IH].
    unfold skip_then_zero, record_skip_mean in Hm.
    destruct (freqlemfilms2 row), (freqlemlivres row); exact Hm.
  - intros q1 q2. unfold thresholds. rewrite Hs. simpl.
    destruct (Numpy.percentile series 33) as [a |]; simpl.
    + destruct (Numpy.percentile series 66) as [b |]; simpl.
      * split; [intros H; injection H as <- <-; auto | intros [H1 H2]; congruence].
      * split; [discriminate | intros [_ H]; discriminate].
    + split; [discriminate | intros [H _]; discriminate].
Qed.

Lemma freq_series_skips_missing_witness :
  Forall2 (fun row m =>
             match freqlemfilms2 row, freqlemlivres row with
             | Num a, Num b => m == (a + b) / 2
             | Num f, NaN => m == f
             | NaN, Num f => m == f
             | NaN, NaN => m == 0
             end%Q) (rows sample_corpus) [200 # 2; 80; 0]%Q
  /\ forall q1 q2, thresholds sample_corpus = Ok (q1, q2) <->
                   Numpy.percentile [200 # 2; 80; 0]%Q 33 = Ok q1
                   /\ Numpy.percentile [200 # 2; 80; 0]%Q 66 = Ok q2.
Proof.
  apply (freq_series_skips_missing sample_corpus). reflexivity.
Defined.

(* ===================================================================== *)
(** ** The feature record of a known word *)
(* ===================================================================== *)

(** What [prepare_input] builds for a word whose trimmed form is in the
    corpus. *)
Lemma known_word_feature (df : DataFrame) (w : string) (row : CorpusRow)
    (rest : list CorpusRow) :
  select_lemme df (strip w) = row :: rest ->
  prepare_input df [w]
  = Ok [{| f_lemme := Str (strip w);
           f_cgram := cgram row;
           f_genre := cell_or_else (get_genre df row (Str "none")) (Str "none");
           f_avg_freq :=
             or_else (div2 (add (get_freqlemfilms2 df row (Num 0))
                                (get_freqlemlivres df row (Num 0))))
                     (Num 0) |}].
Proof.
  intros Hsel. rewrite prepare_input_single. unfold prepare_row. rewrite Hsel.
  destruct (select_lemme_head _ _ _ _ Hsel) as [_ ->]. reflexivity.
Qed.


(** A NaN measure makes the known-word average NaN. *)
Lemma known_average_of_nan (df : DataFrame) (row : CorpusRow) :
  get_freqlemfilms2 df row (Num 0) = NaN \/ get_freqlemlivres df row (Num 0) = NaN ->
  or_else (div2 (add (get_freqlemfilms2 df row (Num 0))
                     (get_freqlemlivres df row (Num 0))))
          (Num 0) = NaN.
Proof.
  intros [-> | ->]; [reflexivity |].
  destruct (get_freqlemfilms2 df row (Num 0)); reflexivity.
Qed.

(** C4 at its failing input.  The known word "aller" has an empty films
    measure and 80 for books: its average frequency comes out NaN, where the
    zero-filled mean is 40. *)
Theorem known_word_average_nan :
  exists fr,
    select_lemme gap_corpus (strip "aller") = [aller]
    /\ prepare_input gap_corpus ["aller"] = Ok [fr]
    /\ f_avg_freq fr = NaN
    /\ (record_zero_fill_mean aller == 40)%Q.
Proof.
  eexists. split; [reflexivity |]. split; [reflexivity |].
  split; reflexivity.
Qed.

(** C8 at its failing input.  The known word "aller" has an empty gender
    field: the gender of its feature record is NaN, not "none". *)
Theorem known_word_gender_nan :
  exists fr,
    select_lemme gap_corpus (strip "aller") = [aller]
    /\ genre aller = Missing
    /\ prepare_input gap_corpus ["aller"] = Ok [fr]
    /\ f_genre fr = Missing
    /\ f_genre fr <> Str "none".
Proof.
  eexists. split; [reflexivity |]. split; [reflexivity |].
  split; [reflexivity |]. split; [reflexivity | discriminate].
Qed.

(** The gender of a feature record in the cases the code handles: "none"
    for an unknown word, for a corpus without gender column and for an empty
    string; the corpus value when that is a non-empty string. *)
Lemma gender_of_feature (df : DataFrame) (w : string) (fr : FeatureRecord) :
  prepare_input df [w] = Ok [fr] ->
  match select_lemme df (strip w) with
  | [] => f_genre fr = Str "none"
  | row :: _ =>
      if has_genre df then
        match genre row with
        | Str s => f_genre fr = if String.eqb s "" then Str "none" else Str s
        | Missing => f_genre fr = Missing
        end
      else f_genre fr = Str "none"
  end.
Proof.
  rewrite prepare_input_single. unfold prepare_row.
  destruct (select_lemme df (strip w)) as [| row rest].
  - destruct (freq_columns df); [| discriminate].
    simpl. intros H. injection H as <-. reflexivity.
  - simpl. intros H. injection H as <-. simpl. unfold get_genre.
    destruct (has_genre df); [| reflexivity].
    destruct (genre row) as [s |]; [| reflexivity].
    unfold cell_or_else. simpl. destruct (String.eqb s ""); reflexivity.
Qed.

(** A word absent in its raw form whose trimmed form is in the corpus takes
    the fallback with the known-word average of the matched record. *)
Lemma trimmed_match_label (pipeline : Pipeline) (le : LabelEncoder) (df : DataFrame)
    (q1 q2 : Q) (w r : string) (evs : list event) (row : CorpusRow)
    (rest : list CorpusRow) :
  word_run pipeline le df q1 q2 w r evs ->
  in_lemme df w = false ->
  select_lemme df (strip w) = row :: rest ->
  evs = []
  /\ r = threshold_label q1 q2
           (or_else (div2 (add (get_freqlemfilms2 df row (Num 0))
                               (get_freqlemlivres df row (Num 0))))
                    (Num 0)).
Proof.
  intros Hrun Hm Hsel.
  destruct (word_run_fallback _ _ _ _ _ _ _ _ Hrun Hm) as (fr & Hp & -> & ->).
  rewrite (known_word_feature _ _ _ _ Hsel) in Hp. injection Hp as <-.
  split; reflexivity.
Qed.

(** C5 at its failing input.  " aller" is absent in its raw form and matches
    the record of "aller" once trimmed; that record has an empty films
    measure and 80 for books.  The word takes the fallback (no classifier
    call), but the average compared with the thresholds is NaN, which gives
    "Level 3", where the zero-filled mean 40 would give "Level 1". *)
Theorem trimmed_match_average_nan :
  exists q1 q2 fr,
    in_lemme gap_corpus " aller" = false
    /\ select_lemme gap_corpus (strip " aller") = [aller]
    /\ thresholds gap_corpus = Ok (q1, q2)
    /\ prepare_input gap_corpus [" aller"] = Ok [fr]
    /\ f_avg_freq fr = NaN
    /\ predict_levels sample_files gap_corpus [" aller"] [] = (Ok ["Level 3"], [])
    /\ threshold_label q1 q2 (Num (record_zero_fill_mean aller)) = "Level 1".
Proof.
  eexists. eexists. eexists.
  split; [reflexivity |]. split; [reflexivity |].
  split; [vm_compute; reflexivity |]. split; [reflexivity |].
  split; [reflexivity |]. split; vm_compute; reflexivity.
Qed.

(* ===================================================================== *)
(** ** The script: output and failure *)
(* ===================================================================== *)

Lemma printed_app (l1 l2 : list event) :
  printed (l1 ++ l2) = (printed l1 ++ printed l2)%list.
Proof.
  induction l1 as [| [? | ? | ?] l1 IH]; simpl; rewrite ?IH; reflexivity.
Qed.

Lemma print_results_run (pairs : list (string * string)) (log : list event) :
  print_results pairs log
  = (Ok tt, (log ++ map (fun pair => EPrint (result_line pair)) pairs)%list).
Proof.
  revert log. induction pairs as [| [word level] rest IH]; intros log; simpl.
  - unfold ret. rewrite app_nil_r. reflexivity.
  - unfold bind, emit. rewrite IH, <- app_assoc. reflexivity.
Qed.

Lemma printed_lines (pairs : list (string * string)) :
  printed (map (fun pair => EPrint (result_line pair)) pairs) = map result_line pairs.
Proof.
  induction pairs as [| pair rest IH]; simpl; [| rewrite IH]; reflexivity.
Qed.

Lemma threshold_label_level (q1 q2 : Q) (x : float) :
  exists label, threshold_label q1 q2 x = "Level " ++ label.
Proof.
  unfold threshold_label.
  destruct (ge x (Num q2)); [exists "1"; reflexivity |].
  destruct (ge x (Num q1)); [exists "2" | exists "3"]; reflexivity.
Qed.

Lemma loop_run_levels (pipeline : Pipeline) (le : LabelEncoder) (df : DataFrame)
    (q1 q2 : Q) (words rs : list string) (evs : list event) :
  loop_run pipeline le df q1 q2 words rs evs ->
  Forall2 (fun _ r => exists label, r = "Level " ++ label) words rs.
Proof.
  induction 1 as [| w ws r rs evs evs' Hw _ IH]; constructor; [| exact IH].
  destruct Hw; [eexists; reflexivity | apply threshold_label_level].
Qed.

Lemma lines_of_levels (words preds : list string) :
  Forall2 (fun _ r => exists label, r = "Level " ++ label) words preds ->
  Forall2 (fun w line => exists label, line = w ++ " -> Level " ++ label)
    words (map result_line (combine words preds)).
Proof.
  induction 1 as [| w r ws rs (label & ->) _ IH]; simpl; constructor; [| exact IH].
  exists label. reflexivity.
Qed.

(** How the [__main__] block ends on a non-empty word list. *)
Lemma main_nonempty (fs : Files) (df : DataFrame) (words : list string)
    (log : list event) :
  words <> [] ->
  main fs df words log
  = match predict_levels fs df words log with
    | (Ok preds, log1) =>
        (Ok tt, (log1 ++ map (fun pair => EPrint (result_line pair))
                           (combine words preds))%list)
    | (Raise e, log1) => (Raise e, log1)
    end.
Proof.
  intros Hne. destruct words as [| w ws]; [congruence |].
  unfold main, bind.
  destruct (predict_levels fs df (w :: ws) log) as [[preds | e] log1];
    [apply print_results_run | reflexivity].
Qed.

(** A failed load ends [predict_levels] at once, with the log untouched. *)
Lemma predict_levels_load_failure (fs : Files) (df : DataFrame) (words : list string)
    (log : list event) :
  (forall p, model_file fs <> Loaded p) \/ (forall le, encoder_file fs <> Loaded le) ->
  exists e, predict_levels fs df words log = (Raise e, log).
Proof.
  unfold predict_levels, load_pipeline, load_label_encoder, bind, raise, ret.
  intros [H | H].
  - destruct (model_file fs) as [p | | e]; [destruct (H p); reflexivity | ..];
      eexists; reflexivity.
  - destruct (model_file fs) as [p | | e]; [| eexists; reflexivity ..].
    destruct (encoder_file fs) as [le | | e]; [destruct (H le); reflexivity | ..];
      eexists; reflexivity.
Qed.

(** C9.  When the classifier or the encoder cannot be loaded the script
    ends with an exception before any word is handled: no classifier call
    and no output (an empty word list ends earlier still, with the usage
    line).  And in every run the printed lines are none, or the usage line
    alone, or one line for each input word. *)
Theorem load_failure_is_fail_fast (corpus : file DataFrame) (fs : Files)
    (words : list string) (r : result unit) (log' : list event) :
  script corpus fs words [] = (r, log') ->
  ((forall p, model_file fs <> Loaded p) \/ (forall le, encoder_file fs <> Loaded le) ->
   (exists e, r = Raise e)
   /\ (log' = [] \/ (words = [] /\ log' = [EPrint usage])))
  /\ (printed log' = []
      \/ (words = [] /\ printed log' = [usage])
      \/ (r = Ok tt
          /\ exists preds, List.length preds = List.length words
                           /\ printed log' = map result_line (combine words preds))).
Proof.
  unfold script. intros Hrun.
  destruct corpus as [df | | e0];
    [| injection Hrun as <- <-; split; [intros _; split; eauto | auto] ..].
  destruct words as [| w ws].
  { injection Hrun as <- <-. split; [intros _; split; eauto | auto]. }
  rewrite main_nonempty in Hrun by discriminate.
  split.
  - intros Hload.
    destruct (predict_levels_load_failure fs df (w :: ws) [] Hload) as (e & He).
    rewrite He in Hrun. injection Hrun as <- <-. split; eauto.
  - destruct (predict_levels fs df (w :: ws) []) as [[preds | e] log1] eqn:Ep.
    + injection Hrun as <- <-. right. right. split; [reflexivity |].
      exists preds. split.
      * apply predict_levels_ok in Ep.
        destruct Ep as (pipeline & le & q1 & q2 & evs & _ & _ & _ & Hloop & _).
        eapply loop_run_length, Hloop.
      * rewrite printed_app, printed_lines.
        rewrite (predict_levels_printed _ _ _ _ _ _ Ep). reflexivity.
    + injection Hrun as <- <-. left.
      rewrite (predict_levels_printed _ _ _ _ _ _ Ep). reflexivity.
Qed.

Lemma load_failure_is_fail_fast_witness :
  (exists e,
      Raise (SystemExit "Error: Model file not found at 'level_model.pkl'.")
      = @Raise unit e)
  /\ (@nil event = [] \/ (["chat"; "xyzzy123"] = [] /\ [] = [EPrint usage])).
Proof.
  refine (proj1 (load_failure_is_fail_fast (Loaded sample_corpus) no_model_files
                   ["chat"; "xyzzy123"] _ _ eq_refl) _).
  left. intros p. discriminate.
Defined.

(** C10.  On an empty word list the script prints the usage line, ends with
    exit code 1 and prints no prediction.  On a non-empty list, when the
    artifacts load, the thresholds exist and the classifier and the encoder
    answer, it ends normally having printed exactly one line
    "word -> Level label" for each input word, in input order; and every run
    that ends normally has printed exactly these lines. *)
Theorem one_line_per_word (fs : Files) (df : DataFrame) (words : list string) :
  script (Loaded df) fs [] [] = (Raise (SystemExitCode 1), [EPrint usage])
  /\ (words <> [] ->
      forall pipeline le,
        model_file fs = Loaded pipeline -> encoder_file fs = Loaded le ->
        (forall x, exists code, pipeline x = Ok code) ->
        (forall code, exists label, le code = Ok label) ->
        rows df <> [] ->
        has_freqlemfilms2 df = true -> has_freqlemlivres df = true ->
        exists log', script (Loaded df) fs words [] = (Ok tt, log'))
  /\ (forall log',
        script (Loaded df) fs words [] = (Ok tt, log') ->
        Forall2 (fun w line => exists label, line = w ++ " -> Level " ++ label)
          words (printed log')).
Proof.
  split; [reflexivity |]. split.
  - intros Hne pipeline le Hm He Hp Hl Hrows Hf Hb. unfold script.
    rewrite main_nonempty by exact Hne.
    destruct (thresholds_total df Hrows Hf Hb) as (q1 & q2 & Hth).
    destruct (predict_loop_total pipeline le df q1 q2 words Hf Hb Hp Hl)
      as (rs & evs & Hloop).
    assert (Hrun : predict_levels fs df words [] = (Ok rs, ([] ++ evs)%list)).
    { apply predict_levels_ok. exists pipeline, le, q1, q2, evs. auto. }
    rewrite Hrun. eexists; reflexivity.
  - intros log' Hrun. unfold script in Hrun.
    assert (Hne : words <> []) by (intros ->; discriminate Hrun).
    rewrite main_nonempty in Hrun by exact Hne.
    destruct (predict_levels fs df words []) as [[preds | e] log1] eqn:Ep;
      [| discriminate].
    injection Hrun as <-.
    rewrite printed_app, printed_lines, (predict_levels_printed _ _ _ _ _ _ Ep).
    change (printed []) with (@nil string). rewrite app_nil_l.
    apply predict_levels_ok in Ep.
    destruct Ep as (pipeline & le & q1 & q2 & evs & _ & _ & _ & Hloop & _).
    apply lines_of_levels. eapply loop_run_levels, Hloop.
Qed.

Lemma one_line_per_word_witness :
  (exists log',
      script (Loaded sample_corpus) sample_files ["chat"; " chat"; "xyzzy123"] []
      = (Ok tt, log'))
  /\ Forall2 (fun w line => exists label, line = w ++ " -> Level " ++ label)
       ["chat"; " chat"; "xyzzy123"]
       ["chat -> Level B1"; " chat -> Level 1"; "xyzzy123 -> Level 1"].
Proof.
  destruct (one_line_per_word sample_files sample_corpus
              ["chat"; " chat"; "xyzzy123"]) as (_ & Htotal & Hlines).
  split.
  - apply (Htotal ltac:(discriminate) sample_pipeline sample_encoder
             eq_refl eq_refl).
    + intros x. eexists; reflexivity.
    + intros code. eexists; reflexivity.
    + discriminate.
    + reflexivity.
    + reflexivity.
  - apply (Hlines
             [EPredict [{| f_lemme := Str "chat"; f_cgram := Str "NOM";
                           f_genre := Str "m"; f_avg_freq := Num (200 # 2) |}];
              EInverse 2;
              EPrint "chat -> Level B1"; EPrint " chat -> Level 1";
              EPrint "xyzzy123 -> Level 1"]).
    reflexivity.
Defined.

(* ===================================================================== *)
(** ** Trimming and the feature builder *)
(* ===================================================================== *)

Lemma lstrip_starts_clean (s : string) : starts_clean (lstrip s).
Proof.
  induction s as [| ch rest IH]; simpl; [exact I |].
  destruct (isspace ch) eqn:E; [exact IH | exact E].
Qed.

Lemma lstrip_clean (s : string) : starts_clean s -> lstrip s = s.
Proof.
  destruct s as [| ch rest]; simpl; [reflexivity |].
  intros ->. reflexivity.
Qed.

Lemma rstrip_starts_clean (s : string) : starts_clean s -> starts_clean (rstrip s).
Proof.
  destruct s as [| ch rest]; simpl; [trivial |].
  intros E. destruct (rstrip rest); [rewrite E |]; exact E.
Qed.

Lemma rstrip_idempotent (s : string) : rstrip (rstrip s) = rstrip s.
Proof.
  induction s as [| ch rest IH]; simpl; [reflexivity |].
  destruct (rstrip rest) as [| c r] eqn:E.
  - destruct (isspace ch) eqn:Ec; simpl; [reflexivity | rewrite Ec; reflexivity].
  - change (rstrip (String ch (String c r))) with
      (match rstrip (String c r) with
       | EmptyString => if isspace ch then EmptyString else String ch EmptyString
       | rest' => String ch rest'
       end).
    rewrite IH. reflexivity.
Qed.

Lemma strip_idempotent (s : string) : strip (strip s) = strip s.
Proof.
  unfold strip.
  rewrite (lstrip_clean (rstrip (lstrip s)))
    by (apply rstrip_starts_clean, lstrip_starts_clean).
  apply rstrip_idempotent.
Qed.

Lemma prepare_row_strip (df : DataFrame) (w : string) :
  prepare_row df (strip w) = prepare_row df w.
Proof. unfold prepare_row. rewrite strip_idempotent. reflexivity. Qed.

Lemma prepare_loop_acc (df : DataFrame) (words : list string) (acc : list FeatureRecord) :
  prepare_loop df words acc
  = rbind (prepare_loop df words []) (fun rs => Ok (acc ++ rs)%list).
Proof.
  revert acc. induction words as [| w ws IH]; intros acc; simpl.
  - rewrite app_nil_r. reflexivity.
  - destruct (prepare_row df w) as [r | e]; simpl; [| reflexivity].
    rewrite (IH (acc ++ [r])%list), (IH [r]).
    destruct (prepare_loop df ws []) as [rs | e]; simpl; [| reflexivity].
    rewrite <- app_assoc. reflexivity.
Qed.

Lemma prepare_input_cons (df : DataFrame) (w : string) (ws : list string) :
  prepare_input df (w :: ws)
  = rbind (prepare_row df w) (fun r =>
    rbind (prepare_input df ws) (fun rs => Ok (r :: rs))).
Proof.
  unfold prepare_input. simpl.
  destruct (prepare_row df w) as [r | e]; simpl; [| reflexivity].
  apply prepare_loop_acc.
Qed.

(** X1.  [prepare_input] sees a word only through its trimmed form: blanks
    around the words of a list never change the frame it builds. *)
Theorem prepare_input_ignores_blanks (df : DataFrame) (words : list string) :
  prepare_input df (map strip words) = prepare_input df words.
Proof.
  induction words as [| w ws IH]; [reflexivity |].
  cbn [map]. rewrite !prepare_input_cons, prepare_row_strip, IH. reflexivity.
Qed.

(** X2.  A frame built by [prepare_input] has exactly one record per word,
    in the order of the words, and each record is the one the word gets when
    it is prepared alone; conversely such records make up the frame. *)
Theorem prepare_input_per_word (df : DataFrame) (words : list string)
    (rs : list FeatureRecord) :
  prepare_input df words = Ok rs <->
  Forall2 (fun w r => prepare_input df [w] = Ok [r]) words rs.
Proof.
  revert rs. induction words as [| w ws IH]; intros rs.
  - split.
    + intros H. injection H as <-. constructor.
    + intros H. inversion H. reflexivity.
  - rewrite prepare_input_cons. split.
    + destruct (prepare_row df w) as [r | e] eqn:Er; [| discriminate]. simpl.
      destruct (prepare_input df ws) as [rs' | e] eqn:Ers; [| discriminate]. simpl.
      intros H. injection H as <-. constructor.
      * rewrite prepare_input_single, Er. reflexivity.
      * apply IH. reflexivity.
    + intros H. inversion H as [| w' r ws' rs' Hr Hrs]; subst.
      rewrite prepare_input_single in Hr.
      destruct (prepare_row df w) as [r' | e]; [| discriminate].
      simpl in Hr. injection Hr as ->. simpl.
      apply IH in Hrs. rewrite Hrs. reflexivity.
Qed.

(** X3.  The lemma of every feature record is the trimmed word, whether the
    word is in the corpus or not, and trimming it again changes nothing. *)
Theorem feature_lemma_is_trimmed (df : DataFrame) (w : string) (fr : FeatureRecord) :
  prepare_input df [w] = Ok [fr] ->
  f_lemme fr = Str (strip w) /\ strip (strip w) = strip w.
Proof.
  intros H. split; [| apply strip_idempotent].
  rewrite prepare_input_single in H. unfold prepare_row in H.
  destruct (select_lemme df (strip w)) as [| row rest] eqn:Es.
  - destruct (freq_columns df); [| discriminate].
    simpl in H. injection H as <-. reflexivity.
  - simpl in H. injection H as <-. simpl.
    apply (select_lemme_head _ _ _ _ Es).
Qed.

Lemma feature_lemma_is_trimmed_witness :
  f_lemme {| f_lemme := Str "chat"; f_cgram := Str "NOM"; f_genre := Str "m";
             f_avg_freq := Num (200 # 2) |} = Str (strip "  chat ")
  /\ strip (strip "  chat ") = strip "  chat ".
Proof.
  apply (feature_lemma_is_trimmed sample_corpus "  chat "). reflexivity.
Defined.

(* ===================================================================== *)
(** ** Lookups of the feature builder *)
(* ===================================================================== *)






Lemma select_lemme_first (df : DataFrame) (w : string) (pre post : list CorpusRow)
    (row : CorpusRow) :
  rows df = (pre ++ row :: post)%list ->
  lemme row = Str w ->
  (forall r, In r pre -> lemme r <> Str w) ->
  exists rest, select_lemme df w = row :: rest.
Proof.
  intros Hrows Hrow Hpre. unfold select_lemme. rewrite Hrows, filter_app.
  assert (Hnil : filter (fun r => cell_eqb (lemme r) w) pre = []).
  { clear Hrows. induction pre as [| r pre IH]; [reflexivity |]. simpl.
    destruct (cell_eqb (lemme r) w) eqn:E.
    - exfalso. apply (Hpre r); [left; reflexivity |].
      destruct (lemme r) as [s' |]; simpl in E; [| discriminate].
      apply String.eqb_eq in E. congruence.
    - apply IH. intros r' Hr'. apply Hpre. right. exact Hr'. }
  rewrite Hnil. simpl. rewrite Hrow. simpl. rewrite String.eqb_refl.
  eexists; reflexivity.
Qed.

(** X5.  When several corpus records share a lemma the first one in corpus
    order is the one used: the category, the gender and the average of the
    feature record of a word come from the first record whose lemma is the
    trimmed word. *)
Theorem first_record_wins (df : DataFrame) (w : string) (pre post : list CorpusRow)
    (row : CorpusRow) :
  rows df = (pre ++ row :: post)%list ->
  lemme row = Str (strip w) ->
  (forall r, In r pre -> lemme r <> Str (strip w)) ->
  prepare_input df [w]
  = Ok [{| f_lemme := Str (strip w);
           f_cgram := cgram row;
           f_genre := cell_or_else (get_genre df row (Str "none")) (Str "none");
           f_avg_freq :=
             or_else (div2 (add (get_freqlemfilms2 df row (Num 0))
                                (get_freqlemlivres df row (Num 0))))
                     (Num 0) |}].
Proof.
  intros Hrows Hrow Hpre.
  destruct (select_lemme_first df (strip w) pre post row Hrows Hrow Hpre) as (rest & Hs).
  exact (known_word_feature df w row rest Hs).
Qed.

Lemma first_record_wins_witness :
  prepare_input (frame_of [aller; chat; vite; chat_again]) [" chat"]
  = Ok [{| f_lemme := Str "chat"; f_cgram := Str "NOM"; f_genre := Str "m";
           f_avg_freq := Num (200 # 2) |}].
Proof.
  apply (first_record_wins (frame_of [aller; chat; vite; chat_again]) " chat"
           [aller] [vite; chat_again] chat eq_refl eq_refl).
  intros r [<- | []]. discriminate.
Defined.



(** X7.  The gender of a feature record is the sentinel "none" exactly when
    the word is unknown after trimming, or the corpus has no gender column,
    or the gender of the matched record is the empty string or "none"
    itself. *)
Theorem gender_sentinel (df : DataFrame) (w : string) (fr : FeatureRecord) :
  prepare_input df [w] = Ok [fr] ->
  (f_genre fr = Str "none" <->
   select_lemme df (strip w) = []
   \/ has_genre df = false
   \/ exists row rest,
        select_lemme df (strip w) = row :: rest
        /\ (genre row = Str "" \/ genre row = Str "none")).
Proof.
  intros H. pose proof (gender_of_feature df w fr H) as G.
  destruct (select_lemme df (strip w)) as [| row rest].
  - split; [intros _; left; reflexivity | intros _; exact G].
  - destruct (has_genre df).
    + destruct (genre row) as [s |] eqn:Eg.
      * destruct (String.eqb s "") eqn:Es.
        -- apply String.eqb_eq in Es. subst s.
           split; [intros _ | intros _; exact G].
           right. right. exists row, rest. rewrite Eg. auto.
        -- split.
           ++ intros Hn. rewrite G in Hn. injection Hn as ->.
              right. right. exists row, rest. rewrite Eg. auto.
           ++ intros [Hn | [Hn | (row' & rest' & Hr & Hg)]]; try discriminate.
              injection Hr as <- <-. rewrite Eg in Hg.
              destruct Hg as [Hg | Hg]; injection Hg as ->;
                [rewrite String.eqb_refl in Es; discriminate | exact G].
      * split.
        -- intros Hn. rewrite G in Hn. discriminate.
        -- intros [Hn | [Hn | (row' & rest' & Hr & Hg)]]; try discriminate.
           injection Hr as <- <-. rewrite Eg in Hg. destruct Hg; discriminate.
    + split; [intros _; right; left; reflexivity | intros _; exact G].
Qed.

Lemma gender_sentinel_witness :
  f_genre {| f_lemme := Str "xyzzy123"; f_cgram := Str "unknown";
             f_genre := Str "none"; f_avg_freq := Num (360 # 4) |} = Str "none" <->
  select_lemme sample_corpus (strip "xyzzy123") = []
  \/ has_genre sample_corpus = false
  \/ exists row rest,
       select_lemme sample_corpus (strip "xyzzy123") = row :: rest
       /\ (genre row = Str "" \/ genre row = Str "none").
Proof.
  apply (gender_sentinel sample_corpus "xyzzy123"). reflexivity.
Defined.

(* ===================================================================== *)
(** ** The fallback for unknown words *)
(* ===================================================================== *)

Lemma Qle_bool_false (x y : Q) : Qle_bool x y = false -> (y < x)%Q.
Proof. intros H. apply (proj1 (ge_num_false y x)). exact H. Qed.

(** X8.  The fallback never ranks a more frequent word as harder: with
    [a <= b], if [a] gets "Level 1" so does [b], if [b] gets "Level 3" so
    does [a], and if [a] gets "Level 2" then [b] does not get "Level 3".
    This holds for any pair of thresholds. *)
Theorem fallback_label_monotone (q1 q2 a b : Q) :
  (a <= b)%Q ->
  (threshold_label q1 q2 (Num a) = "Level 1" ->
   threshold_label q1 q2 (Num b) = "Level 1")
  /\ (threshold_label q1 q2 (Num b) = "Level 3" ->
      threshold_label q1 q2 (Num a) = "Level 3")
  /\ (threshold_label q1 q2 (Num a) = "Level 2" ->
      threshold_label q1 q2 (Num b) <> "Level 3").
Proof.
  intros Hab. unfold threshold_label. simpl.
  destruct (Qle_bool q2 a) eqn:A2, (Qle_bool q1 a) eqn:A1,
           (Qle_bool q2 b) eqn:B2, (Qle_bool q1 b) eqn:B1;
    repeat split; intros; try reflexivity; try discriminate;
    exfalso;
    repeat match goal with
           | H : Qle_bool _ _ = true |- _ => apply Qle_bool_iff in H
           | H : Qle_bool _ _ = false |- _ => apply Qle_bool_false in H
           end; lra.
Qed.

Lemma fallback_label_monotone_witness :
  (threshold_label 10 50 (Num 60) = "Level 1" ->
   threshold_label 10 50 (Num 75) = "Level 1")
  /\ (threshold_label 10 50 (Num 75) = "Level 3" ->
      threshold_label 10 50 (Num 60) = "Level 3")
  /\ (threshold_label 10 50 (Num 60) = "Level 2" ->
      threshold_label 10 50 (Num 75) <> "Level 3").
Proof.
  apply (fallback_label_monotone 10 50 60 75). discriminate.
Defined.

Lemma unknown_row_average (df : DataFrame) (w : string) (fr : FeatureRecord) :
  in_lemme df (strip w) = false ->
  prepare_input df [w] = Ok [fr] ->
  exists frame, freq_columns df = Ok frame
                /\ fr = {| f_lemme := Str (strip w); f_cgram := Str "unknown";
                           f_genre := Str "none";
                           f_avg_freq := Pandas.mean_skipna (mean_axis1 frame) |}.
Proof.
  intros Hw. rewrite prepare_input_single. unfold prepare_row.
  apply select_lemme_nil_iff in Hw. rewrite Hw.
  destruct (freq_columns df) as [frame |]; [| discriminate].
  simpl. intros H. injection H as <-. exists frame. auto.
Qed.

(** X9.  Within one batch all words that are in the corpus neither in raw
    nor in trimmed form get the same label: the fallback looks at the corpus
    only, not at the word. *)
Theorem unknown_words_share_label (fs : Files) (df : DataFrame)
    (words preds : list string) (log' : list event) :
  predict_levels fs df words [] = (Ok preds, log') ->
  forall (i j : nat) (wi wj : string),
    nth_error words i = Some wi -> nth_error words j = Some wj ->
    ~ In (Str wi) (map lemme (rows df)) ->
    ~ In (Str (strip wi)) (map lemme (rows df)) ->
    ~ In (Str wj) (map lemme (rows df)) ->
    ~ In (Str (strip wj)) (map lemme (rows df)) ->
    nth_error preds i = nth_error preds j.
Proof.
  intros Hrun i j wi wj Hi Hj Ri Ti Rj Tj.
  apply predict_levels_ok in Hrun.
  destruct Hrun as (pipeline & le & q1 & q2 & evs & _ & _ & _ & Hloop & _).
  destruct (loop_run_nth _ _ _ _ _ _ _ _ Hloop i wi Hi) as (ri & ei & -> & Hwi).
  destruct (loop_run_nth _ _ _ _ _ _ _ _ Hloop j wj Hj) as (rj & ej & -> & Hwj).
  apply not_in_lemme in Ri, Ti, Rj, Tj.
  destruct (word_run_fallback _ _ _ _ _ _ _ _ Hwi Ri) as (fi & Hpi & -> & _).
  destruct (word_run_fallback _ _ _ _ _ _ _ _ Hwj Rj) as (fj & Hpj & -> & _).
  destruct (unknown_row_average df wi fi Ti Hpi) as (frame & Hf & ->).
  destruct (unknown_row_average df wj fj Tj Hpj) as (frame' & Hf' & ->).
  rewrite Hf in Hf'. injection Hf' as <-. reflexivity.
Qed.

Lemma unknown_words_share_label_witness :
  nth_error ["Level 1"; "Level B1"; "Level 1"] 0
  = nth_error ["Level 1"; "Level B1"; "Level 1"] 2.
Proof.
  apply (unknown_words_share_label sample_files sample_corpus
           ["xyzzy123"; "chat"; " plugh "] ["Level 1"; "Level B1"; "Level 1"]
           [EPredict [{| f_lemme := Str "chat"; f_cgram := Str "NOM";
                         f_genre := Str "m"; f_avg_freq := Num (200 # 2) |}];
            EInverse 2]
           eq_refl 0%nat 2%nat "xyzzy123" " plugh " eq_refl eq_refl);
    simpl; intros [H | [H | [H | []]]]; discriminate.
Defined.

Lemma present_means_none (rs : list CorpusRow) :
  Forall (fun row => freqlemfilms2 row = NaN /\ freqlemlivres row = NaN) rs ->
  present_means rs = [].
Proof.
  induction 1 as [| row rs [Hf Hb] _ IH]; [reflexivity |].
  simpl. unfold record_skip_mean. rewrite Hf, Hb. exact IH.
Qed.

(** X10.  In a corpus where no record has a frequency measure the mean
    frequency of an unknown word is NaN, every comparison with the thresholds
    is false, and each word that is in the corpus neither in raw nor in
    trimmed form is labelled "Level 3". *)
Theorem unmeasured_corpus_gives_level_3 (fs : Files) (df : DataFrame)
    (words preds : list string) (log' : list event) :
  predict_levels fs df words [] = (Ok preds, log') ->
  Forall (fun row => freqlemfilms2 row = NaN /\ freqlemlivres row = NaN) (rows df) ->
  forall (i : nat) (w : string),
    nth_error words i = Some w ->
    ~ In (Str w) (map lemme (rows df)) ->
    ~ In (Str (strip w)) (map lemme (rows df)) ->
    nth_error preds i = Some "Level 3".
Proof.
  intros Hrun Hnan i w Hi Rw Tw.
  apply predict_levels_ok in Hrun.
  destruct Hrun as (pipeline & le & q1 & q2 & evs & _ & _ & _ & Hloop & _).
  destruct (loop_run_nth _ _ _ _ _ _ _ _ Hloop i w Hi) as (r & ev & -> & Hw).
  apply not_in_lemme in Rw, Tw.
  destruct (word_run_fallback _ _ _ _ _ _ _ _ Hw Rw) as (fr & Hp & -> & _).
  destruct (unknown_row_average df w fr Tw Hp) as (frame & Hf & ->).
  pose proof (global_mean_is_skip_mean df frame Hf) as Hs.
  unfold corpus_skip_mean in Hs. rewrite (present_means_none _ Hnan) in Hs.
  cbn [f_avg_freq].
  destruct (Pandas.mean_skipna (mean_axis1 frame)); [destruct Hs | reflexivity].
Qed.

Lemma unmeasured_corpus_gives_level_3_witness :
  nth_error ["Level 3"; "Level B1"] 0 = Some "Level 3".
Proof.
  refine (unmeasured_corpus_gives_level_3 sample_files unmeasured_corpus
            ["xyzzy123"; "vite"] ["Level 3"; "Level B1"]
            [EPredict [{| f_lemme := Str "vite"; f_cgram := Str "ADV";
                          f_genre := Missing; f_avg_freq := NaN |}];
             EInverse 2]
            eq_refl _ 0%nat "xyzzy123" eq_refl _ _).
  - repeat constructor.
  - simpl. intros [H | [H | []]]; discriminate.
  - simpl. intros [H | [H | []]]; discriminate.
Defined.

(* ===================================================================== *)
(** ** Batches *)
(* ===================================================================== *)

Lemma predict_loop_app (pipeline : Pipeline) (le : LabelEncoder) (df : DataFrame)
    (q1 q2 : Q) (ws1 ws2 results : list string) (log : list event) :
  predict_loop pipeline le df q1 q2 (ws1 ++ ws2) results log
  = match predict_loop pipeline le df q1 q2 ws1 results log with
    | (Ok rs, log1) => predict_loop pipeline le df q1 q2 ws2 rs log1
    | (Raise e, log1) => (Raise e, log1)
    end.
Proof.
  revert results log. induction ws1 as [| w ws IH]; intros results log; simpl.
  - reflexivity.
  - unfold bind.
    destruct (predict_word pipeline le df q1 q2 w log) as [[r | e] log1];
      [apply IH | reflexivity].
Qed.

Lemma loop_run_app (pipeline : Pipeline) (le : LabelEncoder) (df : DataFrame)
    (q1 q2 : Q) (ws1 ws2 rs1 rs2 : list string) (evs1 evs2 : list event) :
  loop_run pipeline le df q1 q2 ws1 rs1 evs1 ->
  loop_run pipeline le df q1 q2 ws2 rs2 evs2 ->
  loop_run pipeline le df q1 q2 (ws1 ++ ws2) (rs1 ++ rs2) (evs1 ++ evs2).
Proof.
  induction 1 as [| w ws r rs evs evs' Hw _ IH]; intros H2; [exact H2 |].
  simpl. rewrite <- app_assoc. constructor; [exact Hw | apply IH, H2].
Qed.

Lemma loop_run_single (pipeline : Pipeline) (le : LabelEncoder) (df : DataFrame)
    (q1 q2 : Q) (w r : string) (evs : list event) :
  word_run pipeline le df q1 q2 w r evs ->
  loop_run pipeline le df q1 q2 [w] [r] (evs ++ []).
Proof. intros H. constructor; [exact H | constructor]. Qed.

(** X11.  The label of a word does not depend on the other words of the
    batch: every label of a batch is the label the word gets when it is
    submitted alone. *)
Theorem batch_is_per_word (fs : Files) (df : DataFrame) (words preds : list string)
    (log' : list event) :
  predict_levels fs df words [] = (Ok preds, log') ->
  Forall2 (fun w r => exists log1, predict_levels fs df [w] [] = (Ok [r], log1))
    words preds.
Proof.
  intros Hrun. apply predict_levels_ok in Hrun.
  destruct Hrun as (pipeline & le & q1 & q2 & evs & Hm & He & Hth & Hloop & _).
  induction Hloop as [| w ws r rs ev ev' Hw _ IH]; constructor; [| exact IH].
  exists ([] ++ (ev ++ []))%list. apply predict_levels_ok.
  exists pipeline, le, q1, q2, (ev ++ [])%list.
  repeat split; try assumption. apply loop_run_single, Hw.
Qed.

Lemma batch_is_per_word_witness :
  Forall2 (fun w r => exists log1,
               predict_levels sample_files sample_corpus [w] [] = (Ok [r], log1))
    ["chat"; " chat"; "xyzzy123"] ["Level B1"; "Level 1"; "Level 1"].
Proof.
  apply (batch_is_per_word sample_files sample_corpus
           ["chat"; " chat"; "xyzzy123"] ["Level B1"; "Level 1"; "Level 1"]
           [EPredict [{| f_lemme := Str "chat"; f_cgram := Str "NOM";
                         f_genre := Str "m"; f_avg_freq := Num (200 # 2) |}];
            EInverse 2]).
  reflexivity.
Defined.

(** X12.  Two batches that end normally can be submitted as one: the
    labels are those of the first followed by those of the second, and the
    classifier and encoder calls are those of the first followed by those of
    the second. *)
Theorem batches_concatenate (fs : Files) (df : DataFrame) (ws1 ws2 p1 p2 : list string)
    (l1 l2 : list event) :
  predict_levels fs df ws1 [] = (Ok p1, l1) ->
  predict_levels fs df ws2 [] = (Ok p2, l2) ->
  predict_levels fs df (ws1 ++ ws2) [] = (Ok (p1 ++ p2)%list, (l1 ++ l2)%list).
Proof.
  intros H1 H2. apply predict_levels_ok in H1, H2.
  destruct H1 as (pipeline & le & q1 & q2 & e1 & Hm & He & Hth & Hl1 & ->).
  destruct H2 as (pipeline' & le' & q1' & q2' & e2 & Hm' & He' & Hth' & Hl2 & ->).
  rewrite Hm in Hm'. injection Hm' as <-.
  rewrite He in He'. injection He' as <-.
  rewrite Hth in Hth'. injection Hth' as <- <-.
  apply predict_levels_ok. exists pipeline, le, q1, q2, (e1 ++ e2)%list.
  repeat split; try assumption. apply loop_run_app; assumption.
Qed.

Lemma batches_concatenate_witness :
  predict_levels sample_files sample_corpus (["chat"] ++ ["xyzzy123"]) []
  = (Ok (["Level B1"] ++ ["Level 1"])%list,
     ([EPredict [{| f_lemme := Str "chat"; f_cgram := Str "NOM";
                    f_genre := Str "m"; f_avg_freq := Num (200 # 2) |}];
       EInverse 2] ++ [])%list).
Proof.
  apply (batches_concatenate sample_files sample_corpus ["chat"] ["xyzzy123"]);
    reflexivity.
Defined.

(** X13.  When the classifier fails on a word the batch stops there: the
    exception of the classifier is the result, the encoder is not called for
    that word, the words after it are not handled, the labels found so far
    are lost and the script prints nothing. *)
Theorem classifier_failure_stops_batch (fs : Files) (df : DataFrame)
    (pipeline : Pipeline) (ws1 ws2 rs : list string) (w : string)
    (log1 : list event) (frame : list FeatureRecord) (e : exn) :
  model_file fs = Loaded pipeline ->
  predict_levels fs df ws1 [] = (Ok rs, log1) ->
  In (Str w) (map lemme (rows df)) ->
  prepare_input df [w] = Ok frame ->
  pipeline frame = Raise e ->
  predict_levels fs df (ws1 ++ w :: ws2) []
  = (Raise e, (log1 ++ [EPredict frame])%list)
  /\ script (Loaded df) fs (ws1 ++ w :: ws2) []
     = (Raise e, (log1 ++ [EPredict frame])%list).
Proof.
  intros Hm Hrun Hw Hp Hfail.
  assert (Hpl : predict_levels fs df (ws1 ++ w :: ws2) []
                = (Raise e, (log1 ++ [EPredict frame])%list)).
  { apply predict_levels_ok in Hrun.
    destruct Hrun as (pipeline' & le & q1 & q2 & evs & Hm' & He & Hth & Hloop & ->).
    rewrite Hm in Hm'. injection Hm' as <-.
    assert (Hl : predict_loop pipeline le df q1 q2 ws1 [] [] = (Ok rs, evs)).
    { apply predict_loop_ok. exists rs, evs. auto. }
    unfold predict_levels, load_pipeline, load_label_encoder, bind, lift, ret.
    rewrite Hm, He, Hth. cbn [fst snd].
    apply in_lemme_iff in Hw.
    assert (Hword : predict_word pipeline le df q1 q2 w evs
                    = (Raise e, (evs ++ [EPredict frame])%list)).
    { unfold predict_word, bind, lift, emit. rewrite Hp, Hw, Hfail. reflexivity. }
    rewrite predict_loop_app, Hl. cbn [predict_loop].
    unfold bind at 1. rewrite Hword. reflexivity. }
  split; [exact Hpl |].
  unfold script. rewrite main_nonempty by (destruct ws1; discriminate).
  rewrite Hpl. reflexivity.
Qed.

Lemma classifier_failure_stops_batch_witness :
  predict_levels failing_files gap_corpus (["zinzolin"; "xyzzy123"] ++ "aller" :: ["chat"]) []
  = (Raise (OtherError "ValueError"),
     ([EPredict [{| f_lemme := Str "zinzolin"; f_cgram := Str "ADJ";
                    f_genre := Str "m"; f_avg_freq := Num (2 # 2) |}];
       EInverse 2]
      ++ [EPredict [{| f_lemme := Str "aller"; f_cgram := Str "VER";
                       f_genre := Missing; f_avg_freq := NaN |}]])%list)
  /\ script (Loaded gap_corpus) failing_files
       (["zinzolin"; "xyzzy123"] ++ "aller" :: ["chat"]) []
     = (Raise (OtherError "ValueError"),
        ([EPredict [{| f_lemme := Str "zinzolin"; f_cgram := Str "ADJ";
                       f_genre := Str "m"; f_avg_freq := Num (2 # 2) |}];
          EInverse 2]
         ++ [EPredict [{| f_lemme := Str "aller"; f_cgram := Str "VER";
                          f_genre := Missing; f_avg_freq := NaN |}]])%list).
Proof.
  apply (classifier_failure_stops_batch failing_files gap_corpus failing_pipeline
           ["zinzolin"; "xyzzy123"] ["chat"] ["Level B1"; "Level 1"] "aller");
    try reflexivity.
  simpl. auto.
Defined.

Lemma Forall2_In_left {A B} (R : A -> B -> Prop) (l : list A) (l' : list B) (x : A) :
  Forall2 R l l' -> In x l -> exists y, In y l' /\ R x y.
Proof.
  induction 1 as [| a b l l' Hab _ IH]; intros Hx; [destruct Hx |].
  destruct Hx as [<- | Hx].
  - exists b. split; [left; reflexivity | exact Hab].
  - destruct (IH Hx) as (y & Hy & Hr). exists y. split; [right; exact Hy | exact Hr].
Qed.

(** X14.  The two lookups can disagree the other way round as well.  A word
    that is in the lemma column in its raw form while its trimmed form is
    not (the corpus field has blanks around it) goes to the classifier, and
    the record the classifier is called on is the one of an unknown word:
    category "unknown", gender "none" and the corpus-wide mean. *)
Theorem raw_match_gets_unknown_features (fs : Files) (df : DataFrame)
    (words preds : list string) (log' : list event) (w : string) :
  predict_levels fs df words [] = (Ok preds, log') ->
  In w words ->
  In (Str w) (map lemme (rows df)) ->
  ~ In (Str (strip w)) (map lemme (rows df)) ->
  exists avg,
    In [{| f_lemme := Str (strip w); f_cgram := Str "unknown";
           f_genre := Str "none"; f_avg_freq := avg |}] (predicted log')
    /\ same avg (corpus_skip_mean df).
Proof.
  intros Hrun Hin Hraw Htrim.
  apply predict_levels_ok in Hrun.
  destruct Hrun as (pipeline & le & q1 & q2 & evs & _ & _ & _ & Hloop & ->).
  destruct (loop_run_routed _ _ _ _ _ _ _ _ Hloop) as [_ Hcalls].
  assert (Hmem : In w (filter (in_lemme df) words)).
  { apply filter_In. split; [exact Hin | apply in_lemme_iff, Hraw]. }
  destruct (Forall2_In_left _ _ _ _ Hcalls Hmem) as (frame & Hframe & _ & Hp).
  apply not_in_lemme in Htrim.
  rewrite prepare_input_single in Hp.
  destruct (prepare_row df w) as [fr |] eqn:Er; [| discriminate].
  simpl in Hp. injection Hp as <-.
  assert (Hp : prepare_input df [w] = Ok [fr])
    by (rewrite prepare_input_single, Er; reflexivity).
  destruct (unknown_row_average df w fr Htrim Hp) as (fm & Hf & ->).
  eexists. split; [exact Hframe |].
  apply global_mean_is_skip_mean, Hf.
Qed.

Lemma raw_match_gets_unknown_features_witness :
  exists avg,
    In [{| f_lemme := Str (strip " chat "); f_cgram := Str "unknown";
           f_genre := Str "none"; f_avg_freq := avg |}]
       (predicted
          [EPredict [{| f_lemme := Str "chat"; f_cgram := Str "unknown";
                        f_genre := Str "none";
                        f_avg_freq :=
                          Pandas.mean_skipna
                            (mean_axis1 [[Num 7; Num 9]; [Num 2; Num 0]]) |}];
           EInverse 2])
    /\ same avg (corpus_skip_mean spaced_corpus).
Proof.
  apply (raw_match_gets_unknown_features sample_files spaced_corpus
           [" chat "] ["Level B1"]).
  - reflexivity.
  - left. reflexivity.
  - left. reflexivity.
  - simpl. intros [H | [H | []]]; discriminate.
Defined.

(* ===================================================================== *)
(** ** The order of the fatal conditions *)
(* ===================================================================== *)

(** X15.  The fatal conditions are met in a fixed order, each before any
    word is handled and with nothing printed but the usage line: a missing
    corpus file ends the script whatever the words and the artifacts are;
    then an empty word list; then a missing classifier file, whatever the
    encoder and the corpus contents are; then a missing encoder file; then a
    missing frequency column, which ends the script with a [KeyError]. *)
Theorem fatal_conditions_in_order (df : DataFrame) (fs : Files) (w : string)
    (ws : list string) :
  (forall words,
      script NotFound fs words []
      = (Raise (SystemExit ("Error: Master data file not found at '"
                            ++ MASTER_PATH ++ "'.")), []))
  /\ script (Loaded df) fs [] [] = (Raise (SystemExitCode 1), [EPrint usage])
  /\ (model_file fs = NotFound ->
      script (Loaded df) fs (w :: ws) []
      = (Raise (SystemExit "Error: Model file not found at 'level_model.pkl'."), []))
  /\ ((exists p, model_file fs = Loaded p) ->
      encoder_file fs = NotFound ->
      script (Loaded df) fs (w :: ws) []
      = (Raise (SystemExit "Error: Encoder file not found at 'label_encoder.pkl'."),
         []))
  /\ ((exists p, model_file fs = Loaded p) ->
      (exists le, encoder_file fs = Loaded le) ->
      has_freqlemfilms2 df = false \/ has_freqlemlivres df = false ->
      exists key, script (Loaded df) fs (w :: ws) [] = (Raise (KeyError key), [])).
Proof.
  split; [reflexivity |]. split; [reflexivity |].
  unfold script. rewrite main_nonempty by discriminate.
  unfold predict_levels, load_pipeline, load_label_encoder, bind, lift, raise, ret.
  split; [| split].
  - intros ->. reflexivity.
  - intros (p & ->) ->. reflexivity.
  - intros (p & ->) (le & ->) Hcol.
    unfold thresholds, freq_series, freq_columns.
    destruct (has_freqlemfilms2 df); [| eexists; reflexivity].
    destruct (has_freqlemlivres df); [| eexists; reflexivity].
    destruct Hcol; discriminate.
Qed.

Lemma fatal_conditions_in_order_witness :
  script (Loaded no_films_corpus) no_model_files ("chat" :: ["xyzzy123"]) []
  = (Raise (SystemExit "Error: Model file not found at 'level_model.pkl'."), [])
  /\ exists key,
       script (Loaded no_films_corpus) sample_files ("chat" :: ["xyzzy123"]) []
       = (Raise (KeyError key), []).
Proof.
  split.
  - apply (proj1 (proj2 (proj2
             (fatal_conditions_in_order no_films_corpus no_model_files
                "chat" ["xyzzy123"])))).
    reflexivity.
  - apply (proj2 (proj2 (proj2 (proj2
             (fatal_conditions_in_order no_films_corpus sample_files
                "chat" ["xyzzy123"]))))).
    + eexists; reflexivity.
    + eexists; reflexivity.
    + left. reflexivity.
Defined.

(* ===================================================================== *)
(** ** The thresholds stay within the corpus frequencies *)
(* ===================================================================== *)

Section ThresholdRange.

Import Numpy.

Local Open Scope Q_scope.

Variables lo hi : Q.

Lemma lerp_within (a b t : Q) :
  within lo hi a -> within lo hi b -> 0 <= t -> t <= 1 -> within lo hi (lerp a b t).
Proof.
  unfold within. intros [Ha1 Ha2] [Hb1 Hb2] Ht0 Ht1. rewrite lerp_eq.
  assert (0 <= (1 - t) * (a - lo)) by (apply Qmult_le_0_compat; lra).
  assert (0 <= t * (b - lo)) by (apply Qmult_le_0_compat; lra).
  assert (0 <= (1 - t) * (hi - a)) by (apply Qmult_le_0_compat; lra).
  assert (0 <= t * (hi - b)) by (apply Qmult_le_0_compat; lra).
  split; lra.
Qed.

Lemma at_virtual_index_within (sorted : list Q) (d0 h : Q) :
  Forall (within lo hi) sorted ->
  (0 < List.length sorted)%nat ->
  0 <= h ->
  within lo hi (at_virtual_index sorted d0 (Z.of_nat (List.length sorted)) h).
Proof.
  intros Hall Hn H0. rewrite Forall_forall in Hall.
  unfold at_virtual_index.
  destruct (Qle_bool (inject_Z (Z.of_nat (List.length sorted) - 1)) h) eqn:E.
  - rewrite last_nth. apply Hall, nth_In. lia.
  - assert (Hlt : ~ inject_Z (Z.of_nat (List.length sorted) - 1) <= h)
      by (rewrite <- Qle_bool_iff, E; discriminate).
    destruct (floor_bounds h) as [Hf Hc].
    assert (Hz : (0 <= Qfloor h)%Z)
      by (change 0%Z with (Qfloor 0); apply Qfloor_resp_le, H0).
    assert (Hb : (Qfloor h < Z.of_nat (List.length sorted) - 1)%Z).
    { apply Z.lt_nge. intros Hge. apply Hlt.
      eapply Qle_trans; [| apply Qfloor_le].
      rewrite <- Zle_Qle. exact Hge. }
    apply lerp_within; [apply Hall, nth_In; lia | apply Hall, nth_In; lia | lra | lra].
Qed.

Lemma percentile_within (data : list Q) (p x : Q) :
  percentile data p = Ok x -> Forall (within lo hi) data -> within lo hi x.
Proof.
  intros Hp Hall.
  destruct (percentile_range _ _ _ Hp) as (Hne & Hp0 & Hp100).
  rewrite percentile_unfold in Hp by assumption. injection Hp as <-.
  rewrite <- (sort_length data).
  apply at_virtual_index_within.
  - rewrite Forall_forall in *. intros y Hy. apply Hall.
    eapply Permutation_in; [apply Permutation_sym, QSort.Permuted_sort | exact Hy].
  - rewrite sort_length. destruct data; [congruence | simpl; lia].
  - apply Qmult_le_0_compat.
    + change 0 with (inject_Z 0). rewrite <- Zle_Qle.
      rewrite sort_length. destruct data; [congruence | simpl List.length; lia].
    + unfold Qdiv. change (/ 100) with (1 # 100). lra.
Qed.

Lemma skip_then_zero_within (row : CorpusRow) :
  lo <= 0 -> 0 <= hi ->
  (forall x, freqlemfilms2 row = Num x \/ freqlemlivres row = Num x -> within lo hi x) ->
  within lo hi (skip_then_zero row).
Proof.
  unfold within, skip_then_zero, record_skip_mean. intros Hlo Hhi Hrow.
  destruct (freqlemfilms2 row) as [a |], (freqlemlivres row) as [b |].
  - destruct (Hrow a (or_introl eq_refl)), (Hrow b (or_intror eq_refl)).
    unfold Qdiv. change (/ 2) with (1 # 2). split; lra.
  - apply (Hrow a). left. reflexivity.
  - apply (Hrow b). right. reflexivity.
  - split; assumption.
Qed.

End ThresholdRange.

Lemma Forall2_Forall_right {A B} (R : A -> B -> Prop) (P : B -> Prop)
    (l : list A) (l' : list B) :
  Forall2 R l l' ->
  (forall a b, In a l -> R a b -> P b) ->
  Forall P l'.
Proof.
  induction 1 as [| a b l l' Hab _ IH]; intros HP; constructor.
  - apply (HP a); [left; reflexivity | exact Hab].
  - apply IH. intros a' b' Ha'. apply HP. right. exact Ha'.
Qed.

(** X16.  The thresholds lie within the range of the corpus frequencies:
    when every measure present in the corpus is between [lo] and [hi], with
    [lo <= 0 <= hi] because a record without measures counts as zero, then
    [lo <= q1 <= q2 <= hi].  In particular the thresholds of a corpus of
    non-negative frequencies are non-negative. *)
Theorem thresholds_within_range (df : DataFrame) (q1 q2 lo hi : Q) :
  thresholds df = Ok (q1, q2) ->
  (lo <= 0)%Q -> (0 <= hi)%Q ->
  (forall row x, In row (rows df) ->
     freqlemfilms2 row = Num x \/ freqlemlivres row = Num x ->
     (lo <= x)%Q /\ (x <= hi)%Q) ->
  (lo <= q1)%Q /\ (q1 <= q2)%Q /\ (q2 <= hi)%Q.
Proof.
  intros Hth Hlo Hhi Hrows.
  pose proof (thresholds_le df q1 q2 Hth) as H12.
  apply thresholds_inv in Hth. destruct Hth as (series & Hs & Hp1 & Hp2).
  assert (Hall : Forall (within lo hi) series).
  { apply (Forall2_Forall_right _ _ _ _ (freq_series_rows df series Hs)).
    intros row m Hin Hm. unfold within. rewrite Hm.
    apply skip_then_zero_within; [assumption .. |].
    intros x Hx. exact (Hrows row x Hin Hx). }
  destruct (percentile_within lo hi series 33 q1 Hp1 Hall) as [L1 _].
  destruct (percentile_within lo hi series 66 q2 Hp2 Hall) as [_ U2].
  auto.
Qed.

Lemma thresholds_within_range_witness :
  exists q1 q2,
    thresholds sample_corpus = Ok (q1, q2)
    /\ (0 <= q1)%Q /\ (q1 <= q2)%Q /\ (q2 <= 120)%Q.
Proof.
  destruct (thresholds_total sample_corpus) as (q1 & q2 & Hth);
    [discriminate | reflexivity | reflexivity |].
  exists q1, q2. split; [exact Hth |].
  apply (thresholds_within_range sample_corpus q1 q2 0 120 Hth);
    [discriminate | discriminate |].
  intros row x [<- | [<- | [<- | []]]] [H | H]; simpl in H;
    try discriminate; injection H as <-; split; discriminate.
Defined.

(* ===================================================================== *)
(** ** Words without blanks around them *)
(* ===================================================================== *)

(** X17.  For a word that has no blanks around it the two lookups agree:
    it goes to the classifier exactly when the feature builder finds it in
    the corpus, and the record the classifier is then called on carries the
    category, gender and average of the first corpus record of that lemma. *)
Theorem clean_word_is_routed_consistently (fs : Files) (df : DataFrame)
    (words preds : list string) (log' : list event) (w : string) :
  predict_levels fs df words [] = (Ok preds, log') ->
  In w words ->
  strip w = w ->
  (In (Str w) (map lemme (rows df)) <-> select_lemme df (strip w) <> [])
  /\ forall row rest,
       select_lemme df (strip w) = row :: rest ->
       In [{| f_lemme := Str w;
              f_cgram := cgram row;
              f_genre := cell_or_else (get_genre df row (Str "none")) (Str "none");
              f_avg_freq :=
                or_else (div2 (add (get_freqlemfilms2 df row (Num 0))
                                   (get_freqlemlivres df row (Num 0))))
                        (Num 0) |}] (predicted log').
Proof.
  intros Hrun Hin Hclean. split.
  - rewrite Hclean, <- in_lemme_iff.
    pose proof (select_lemme_nil_iff df w) as Hnil.
    destruct (in_lemme df w); split; intros H; try discriminate; try reflexivity.
    + intros Hs. apply Hnil in Hs. discriminate.
    + exfalso. apply H, Hnil. reflexivity.
  - intros row rest Hsel.
    apply predict_levels_ok in Hrun.
    destruct Hrun as (pipeline & le & q1 & q2 & evs & _ & _ & _ & Hloop & ->).
    destruct (loop_run_routed _ _ _ _ _ _ _ _ Hloop) as [_ Hcalls].
    assert (Hmem : In w (filter (in_lemme df) words)).
    { apply filter_In. split; [exact Hin |].
      destruct (in_lemme df w) eqn:Em; [reflexivity |].
      apply select_lemme_nil_iff in Em. rewrite Hclean in Hsel. congruence. }
    destruct (Forall2_In_left _ _ _ _ Hcalls Hmem) as (frame & Hframe & _ & Hp).
    rewrite (known_word_feature df w row rest Hsel), Hclean in Hp.
    injection Hp as <-. exact Hframe.
Qed.

Lemma clean_word_is_routed_consistently_witness :
  (In (Str "chat") (map lemme (rows sample_corpus))
   <-> select_lemme sample_corpus (strip "chat") <> [])
  /\ forall row rest,
       select_lemme sample_corpus (strip "chat") = row :: rest ->
       In [{| f_lemme := Str "chat";
              f_cgram := cgram row;
              f_genre := cell_or_else (get_genre sample_corpus row (Str "none"))
                                      (Str "none");
              f_avg_freq :=
                or_else (div2 (add (get_freqlemfilms2 sample_corpus row (Num 0))
                                   (get_freqlemlivres sample_corpus row (Num 0))))
                        (Num 0) |}]
          (predicted
             [EPredict [{| f_lemme := Str "chat"; f_cgram := Str "NOM";
                           f_genre := Str "m"; f_avg_freq := Num (200 # 2) |}];
              EInverse 2]).
Proof.
  apply (clean_word_is_routed_consistently sample_files sample_corpus
           ["chat"; "xyzzy123"] ["Level B1"; "Level 1"]
           [EPredict [{| f_lemme := Str "chat"; f_cgram := Str "NOM";
                         f_genre := Str "m"; f_avg_freq := Num (200 # 2) |}];
            EInverse 2] "chat" eq_refl).
  - left. reflexivity.
  - reflexivity.
Defined.
